(** * Cortex Analyst chat page: a shallow embedding of
      [cortex_analyst_streamlit.py] and the properties of its glue logic.

    The script is a Streamlit page.  Everything it touches that is not its
    own code (the secrets store, the Snowflake connector, the HTTP client,
    pandas, the widgets) is an oracle collected in [environment]; everything
    it shows or sends is recorded, in program order, as a list of [event]s.
    The session state that Streamlit keeps between reruns is threaded
    explicitly. *)

From Stdlib Require Import String Ascii List ZArith Lia Bool Arith.
From Stdlib Require Import DecimalString DecimalNat DecimalZ Decimal Finite.
Import ListNotations.
Open Scope string_scope.
Open Scope list_scope.

(* ===================================================================== *)
(** ** Python values *)
(* ===================================================================== *)

(** The values that travel through the script: the parsed JSON reply, the
    content blocks, the prompt.  [PNone] is Python's [None]. *)
#[warnings="-register-all"]
Inductive pyval : Type :=
| PNone
| PBool (b : bool)
| PInt (z : Z)
| PStr (s : string)
| PList (l : list pyval)
| PDict (kv : list (string * pyval)).

(** Python truthiness, as used by [if request_id:], [x or y] and
    [if st.session_state.active_suggestion:]. *)
Definition truthy (v : pyval) : bool :=
  match v with
  | PNone => false
  | PBool b => b
  | PInt z => negb (Z.eqb z 0)
  | PStr s => negb (String.eqb s "")
  | PList l => match l with [] => false | _ => true end
  | PDict kv => match kv with [] => false | _ => true end
  end.

(** [v == "literal"]. *)
Definition py_eq_str (v : pyval) (s : string) : bool :=
  match v with
  | PStr t => String.eqb t s
  | _ => false
  end.

(** Exceptions.  A [KeyError] carries its argument: the key, when a dict
    raised it; the sentence Streamlit wrote, when the secrets mapping did.
    [StopException] is what [st.stop()] raises; in Streamlit it derives from
    [BaseException], so [except Exception] does not catch it.
    [ExternalError] stands for any [Exception] raised inside a library call
    (requests, the JSON decoder, the connector, pandas, a Streamlit
    element); interrupts and interpreter exits, which are not [Exception]s,
    are not modelled. *)
Inductive exn : Type :=
| KeyError (arg : string)
| TypeError (msg : string)
| AttributeError (msg : string)
| ExternalError (msg : string)
| StopException.

Definition is_Exception (e : exn) : bool :=
  match e with
  | StopException => false
  | _ => true
  end.

(** [str(e)], as interpolated by the f-strings of the error banners.  The
    text of a [KeyError] is the [repr] of its argument: the argument between
    single quotes (no argument met here holds one). *)
Definition exn_str (e : exn) : string :=
  match e with
  | KeyError arg => ("'" ++ arg ++ "'")%string
  | TypeError m => m
  | AttributeError m => m
  | ExternalError m => m
  | StopException => ""
  end.

Inductive result (A : Type) : Type :=
| Ok (a : A)
| Raise (e : exn).
Arguments Ok {A} a.
Arguments Raise {A} e.

(** What a call into a library comes back with: a value, or an
    [Exception] with its message. *)
Inductive attempt (A : Type) : Type :=
| Returned (a : A)
| Failed (msg : string).
Arguments Returned {A} a.
Arguments Failed {A} msg.

Definition of_attempt {A : Type} (x : attempt A) : result A :=
  match x with
  | Returned a => Ok a
  | Failed msg => Raise (ExternalError msg)
  end.

(** *** Dictionaries: association lists in insertion order *)

Fixpoint dict_get {V : Type} (kv : list (string * V)) (k : string) : option V :=
  match kv with
  | [] => None
  | (k', v) :: rest => if String.eqb k' k then Some v else dict_get rest k
  end.

(** [d[k] = v]: an existing key keeps its position, a new key goes last. *)
Fixpoint dict_set {V : Type} (kv : list (string * V)) (k : string) (v : V)
  : list (string * V) :=
  match kv with
  | [] => [(k, v)]
  | (k', v') :: rest =>
      if String.eqb k' k then (k, v) :: rest else (k', v') :: dict_set rest k v
  end.

(** [**x] inside a dict display: [x] must be a mapping. *)
Definition dict_unpack (v : pyval) : result (list (string * pyval)) :=
  match v with
  | PDict kv => Ok kv
  | _ => Raise (TypeError "object is not a mapping")
  end.

(** [x.get(k, default)]: only dicts have the method. *)
Definition py_get (v : pyval) (k : string) (default : pyval) : result pyval :=
  match v with
  | PDict kv => Ok (match dict_get kv k with Some x => x | None => default end)
  | _ => Raise (AttributeError "object has no attribute 'get'")
  end.

(** [x[k]] with a string subscript. *)
Definition py_getitem (v : pyval) (k : string) : result pyval :=
  match v with
  | PDict kv =>
      match dict_get kv k with
      | Some x => Ok x
      | None => Raise (KeyError k)
      end
  | PStr _ => Raise (TypeError "string indices must be integers")
  | PList _ => Raise (TypeError "list indices must be integers or slices, not str")
  | _ => Raise (TypeError "object is not subscriptable")
  end.

Fixpoint chars (s : string) : list pyval :=
  match s with
  | EmptyString => []
  | String c rest => PStr (String c EmptyString) :: chars rest
  end.

(** [for x in v]: the elements a [for] loop walks over. *)
Definition py_iter (v : pyval) : result (list pyval) :=
  match v with
  | PList l => Ok l
  | PStr s => Ok (chars s)
  | PDict kv => Ok (map (fun p => PStr (fst p)) kv)
  | _ => Raise (TypeError "object is not iterable")
  end.

(** [str(n)] for a non-negative index and for an [int]. *)
Definition str_of_nat (n : nat) : string := NilEmpty.string_of_uint (Nat.to_uint n).
Definition str_of_Z (z : Z) : string := NilEmpty.string_of_int (Z.to_int z).

(** The double-quote character of [Token="..."]. *)
Definition dquote : string := String (ascii_of_nat 34) EmptyString.

(* ===================================================================== *)
(** ** The outside world *)
(* ===================================================================== *)

(** [st.secrets["snowflake"]]: a table of strings. *)
Definition config : Type := list (string * string).

(** The object returned by [snowflake.connector.connect]; the script only
    reads [CONN.rest.token]. *)
Record connection : Type := { rest_token : string }.

(** The keyword arguments of [snowflake.connector.connect]. *)
Record connect_args : Type := {
  arg_user : string;
  arg_password : string;
  arg_account : string;
  arg_warehouse : string;
  arg_database : string;
  arg_schema : string;
  arg_role : string
}.

(** What [requests.post] is called with. *)
Record request : Type := {
  req_url : string;
  req_json : pyval;
  req_headers : list (string * string)
}.

(** What [requests.post] returns.  [resp_json] is the outcome of calling
    [resp.json()], which raises on a body that is not JSON. *)
Record response : Type := {
  status_code : Z;
  header_request_id : option string;   (* headers.get("X-Snowflake-Request-Id") *)
  resp_text : string;
  resp_json : attempt pyval
}.

(** A pandas frame as far as the page looks at it: the index ([None] is the
    default range index, otherwise the label and the values of the column
    that was moved there), the column labels and the rows. *)
Record DataFrame : Type := {
  df_index : option (string * list pyval);
  df_columns : list string;
  df_rows : list (list pyval)
}.

(** No label occurs twice among the column labels. *)
Fixpoint distinct_labels (labels : list string) : bool :=
  match labels with
  | [] => true
  | c :: rest => negb (existsb (String.eqb c) rest) && distinct_labels rest
  end.

(** What [st.dataframe] fails with on a frame that has two columns under
    one label: a [ValueError] of the Arrow conversion, whose text no line of
    the script reads. *)
Definition duplicate_labels_error : exn :=
  ExternalError "Duplicate column names found".

(** [df.set_index(df.columns[0])]: the first column leaves the columns and
    becomes the index.  The page gets here only with a frame whose column
    labels are distinct, the table call before it having raised otherwise. *)
Definition set_index_first (df : DataFrame) : DataFrame :=
  match df_columns df with
  | [] => df
  | c :: cols =>
      {| df_index := Some (c, map (fun r => hd PNone r) (df_rows df));
         df_columns := cols;
         df_rows := map (fun r => tl r) (df_rows df) |}
  end.

(** The oracles of one run.  [secrets] is the table [st.secrets] holds
    under "snowflake"; the mapping is Streamlit's own, and for a key [k] it
    does not hold it raises a [KeyError] whose argument is the sentence
    [secrets_key_error k].  [button_pressed] answers [st.button] by widget
    key: the key of the button whose press triggered the run, if any.
    [chat_input] is the text submitted in the chat box, if any. *)
Record environment : Type := {
  secrets : option config;                         (* None: no "snowflake" table *)
  secrets_key_error : string -> string;            (* by the key that is missing *)
  connect : connect_args -> attempt connection;
  requests_post : request -> attempt response;
  read_sql_query : pyval -> connection -> attempt DataFrame;
  button_pressed : string -> bool;                 (* by widget key *)
  chat_input : option string
}.

(** Everything the page shows or sends, in program order. *)
Inductive event : Type :=
| EvError (msg : string)
| EvSuccess (msg : string)
| EvTitle (text : string)
| EvMarkdown (body : pyval)
| EvChatMessage (role : string)
| EvSpinner (text : string)
| EvExpander (label : string) (expanded : bool)
| EvButton (label : pyval) (key : string)
| EvCode (body : pyval) (language : string)
| EvTabs (labels : list string)
| EvDataframe (tab : option string) (df : DataFrame)
| EvLineChart (tab : option string) (df : DataFrame)
| EvBarChart (tab : option string) (df : DataFrame)
| EvPost (req : request)
| EvChatInput (placeholder : string).

(* ===================================================================== *)
(** ** Session state and the effect monad *)
(* ===================================================================== *)

(** One entry of [st.session_state.messages].  A user turn has no
    ["request_id"] key ([turn_request_id = None]); an assistant turn has
    one, whose value may be Python's [None]. *)
Record turn : Type := {
  turn_role : string;
  turn_content : pyval;
  turn_request_id : option pyval
}.

(** [message.get("request_id")]. *)
Definition turn_get_request_id (t : turn) : pyval :=
  match turn_request_id t with
  | Some v => v
  | None => PNone
  end.

(** [st.session_state] once lines 15-29 and 120-123 have run, which is the
    only state the three functions are ever called in. *)
Record session : Type := {
  CONN : connection;
  messages : list turn;
  suggestions : list pyval;
  active_suggestion : pyval
}.

(** A computation reads and updates the session, may raise, and emits
    events.  The session reached is returned also when it raises: what was
    stored in [st.session_state] before the exception stays stored. *)
Definition M (A : Type) : Type := session -> result A * session * list event.

Definition ret {A : Type} (a : A) : M A := fun s => (Ok a, s, []).

Definition bind {A B : Type} (m : M A) (f : A -> M B) : M B :=
  fun s =>
    match m s with
    | (Ok a, s1, t1) =>
        match f a s1 with
        | (r, s2, t2) => (r, s2, t1 ++ t2)
        end
    | (Raise e, s1, t1) => (Raise e, s1, t1)
    end.

Declare Scope py_scope.
Delimit Scope py_scope with py.
Notation "x <- m ;; k" := (bind m (fun x => k))
  (at level 61, m at next level, right associativity) : py_scope.
Notation "m ;; k" := (bind m (fun _ => k))
  (at level 61, right associativity) : py_scope.
Open Scope py_scope.

Definition raise {A : Type} (e : exn) : M A := fun s => (Raise e, s, []).

Definition lift {A : Type} (r : result A) : M A :=
  match r with
  | Ok a => ret a
  | Raise e => raise e
  end.

Definition emit (e : event) : M unit := fun s => (Ok tt, s, [e]).

Definition get_session : M session := fun s => (Ok s, s, []).

(** [try: body  except Exception as e: handler e]. *)
Definition try_except {A : Type} (body : M A) (handler : exn -> M A) : M A :=
  fun s =>
    match body s with
    | (Ok a, s1, t1) => (Ok a, s1, t1)
    | (Raise e, s1, t1) =>
        if is_Exception e then
          match handler e s1 with
          | (r, s2, t2) => (r, s2, t1 ++ t2)
          end
        else (Raise e, s1, t1)
    end.

(** [for x in xs: body x]. *)
Fixpoint for_each {A : Type} (xs : list A) (body : A -> M unit) : M unit :=
  match xs with
  | [] => ret tt
  | x :: rest => body x ;; for_each rest body
  end.

(** [for i, x in enumerate(xs): body i x], counting from [i]. *)
Fixpoint for_enumerate {A : Type} (i : nat) (xs : list A)
  (body : nat -> A -> M unit) : M unit :=
  match xs with
  | [] => ret tt
  | x :: rest => body i x ;; for_enumerate (S i) rest body
  end.

(** [st.session_state.messages.append(t)]. *)
Definition push_message (t : turn) (s : session) : session :=
  {| CONN := CONN s; messages := messages s ++ [t];
     suggestions := suggestions s; active_suggestion := active_suggestion s |}.

Definition append_message (t : turn) : M unit :=
  fun s => (Ok tt, push_message t s, []).

(** [st.session_state.active_suggestion = v]. *)
Definition store_active_suggestion (v : pyval) (s : session) : session :=
  {| CONN := CONN s; messages := messages s;
     suggestions := suggestions s; active_suggestion := v |}.

Definition set_active_suggestion (v : pyval) : M unit :=
  fun s => (Ok tt, store_active_suggestion v s, []).

(* ===================================================================== *)
(** ** The three functions of the page *)
(* ===================================================================== *)

Section Page.

Variable env : environment.

(** The module-level [snowflake_config] bound at line 9. *)
Variable snowflake_config : config.

(** [snowflake_config[k]]: a lookup in the mapping of the secrets. *)
Definition config_get (k : string) : M string :=
  match dict_get snowflake_config k with
  | Some v => ret v
  | None => raise (KeyError (secrets_key_error env k))
  end.

Definition opt_str (o : option string) : pyval :=
  match o with
  | Some s => PStr s
  | None => PNone
  end.

(** The body of the only message sent: lines 36-39. *)
Definition request_body (prompt : pyval) (semantic_model_file : string) : pyval :=
  PDict
    [("messages",
      PList [PDict [("role", PStr "user");
                    ("content", PList [PDict [("type", PStr "text");
                                              ("text", prompt)]])]]);
     ("semantic_model_file", PStr semantic_model_file)].

(** [send_message], lines 33-56. *)
Definition send_message (prompt : pyval) : M pyval :=
  try_except
    (database <- config_get "database" ;;
     schema <- config_get "schema" ;;
     stage <- config_get "stage" ;;
     file <- config_get "file" ;;
     let body :=
       request_body prompt
         ("@" ++ database ++ "." ++ schema ++ "." ++ stage ++ "/" ++ file)%string in
     host <- config_get "host" ;;
     s <- get_session ;;
     let req :=
       {| req_url := ("https://" ++ host ++ "/api/v2/cortex/analyst/message")%string;
          req_json := body;
          req_headers :=
            [("Authorization",
              ("Snowflake Token=" ++ dquote ++ rest_token (CONN s) ++ dquote)%string);
             ("Content-Type", "application/json")] |} in
     emit (EvPost req) ;;
     resp <- lift (of_attempt (requests_post env req)) ;;
     let request_id := header_request_id resp in
     if Z.ltb (status_code resp) 400 then
       parsed <- lift (of_attempt (resp_json resp)) ;;
       fields <- lift (dict_unpack parsed) ;;
       ret (PDict (dict_set fields "request_id" (opt_str request_id)))
     else
       emit (EvError ("Request failed with status " ++ str_of_Z (status_code resp)
                      ++ ": " ++ resp_text resp)%string) ;;
       ret (PDict []))
    (fun e =>
       emit (EvError ("Error sending message: " ++ exn_str e)%string) ;;
       ret (PDict [])).

(** The widget key of a suggestion button, line 93. *)
Definition widget_key (message_index suggestion_index : nat) : string :=
  (str_of_nat message_index ++ "_" ++ str_of_nat suggestion_index)%string.

(** [message_index or len(st.session_state.messages)], line 83: both
    [None] and [0] are falsy. *)
Definition index_or_len (message_index : option nat) (len : nat) : nat :=
  match message_index with
  | Some (S i) => S i
  | _ => len
  end.

(** [st.dataframe(df)] and [data_tab.dataframe(df)]: the table is drawn
    unless two columns of the frame share a label, which Streamlit refuses
    with an exception. *)
Definition st_dataframe (tab : option string) (df : DataFrame) : M unit :=
  if distinct_labels (df_columns df) then emit (EvDataframe tab df)
  else raise duplicate_labels_error.

(** Lines 101-113: the views of one result set. *)
Definition display_frame (df : DataFrame) : M unit :=
  if Nat.ltb 1 (length (df_rows df)) then
    emit (EvTabs ["Data"; "Line Chart"; "Bar Chart"]) ;;
    st_dataframe (Some "Data") df ;;
    let df' :=
      if Nat.ltb 1 (length (df_columns df)) then set_index_first df else df in
    emit (EvLineChart (Some "Line Chart") df') ;;
    emit (EvBarChart (Some "Bar Chart") df')
  else
    st_dataframe None df.

(** Lines 92-94: one button per suggestion; a pressed button stores its
    label in the slot.  [EvButton] records the call of [st.button] with its
    label and its key.  Streamlit raises when a key is used for the second
    time in a run; the call is modelled as it goes when its key is new, so
    that a run is described up to the first key that comes twice. *)
Definition display_suggestion (message_index suggestion_index : nat)
  (suggestion : pyval) : M unit :=
  emit (EvButton suggestion (widget_key message_index suggestion_index)) ;;
  if button_pressed env (widget_key message_index suggestion_index)
  then set_active_suggestion suggestion
  else ret tt.

(** Lines 88-113: one pass of the loop body. *)
Definition display_item (message_index : nat) (item : pyval) : M unit :=
  ty <- lift (py_getitem item "type") ;;
  if py_eq_str ty "text" then
    text <- lift (py_getitem item "text") ;;
    emit (EvMarkdown text)
  else
    ty <- lift (py_getitem item "type") ;;
    if py_eq_str ty "suggestions" then
      emit (EvExpander "Suggestions" true) ;;
      sugg <- lift (py_getitem item "suggestions") ;;
      l <- lift (py_iter sugg) ;;
      for_enumerate 0 l (display_suggestion message_index)
    else
      ty <- lift (py_getitem item "type") ;;
      if py_eq_str ty "sql" then
        emit (EvExpander "SQL Query" false) ;;
        statement <- lift (py_getitem item "statement") ;;
        emit (EvCode statement "sql") ;;
        emit (EvExpander "Results" true) ;;
        emit (EvSpinner "Running SQL...") ;;
        statement <- lift (py_getitem item "statement") ;;
        s <- get_session ;;
        df <- lift (of_attempt (read_sql_query env statement (CONN s))) ;;
        display_frame df
      else ret tt.

(** [display_content], lines 77-113. *)
Definition display_content (content : pyval) (request_id : pyval)
  (message_index : option nat) : M unit :=
  s <- get_session ;;
  let message_index := index_or_len message_index (length (messages s)) in
  (if truthy request_id then
     emit (EvExpander "Request ID" false) ;;
     emit (EvMarkdown request_id)
   else ret tt) ;;
  items <- lift (py_iter content) ;;
  for_each items (display_item message_index).

Definition user_turn (prompt : pyval) : turn :=
  {| turn_role := "user";
     turn_content := PList [PDict [("type", PStr "text"); ("text", prompt)]];
     turn_request_id := None |}.

Definition assistant_turn (content request_id : pyval) : turn :=
  {| turn_role := "assistant";
     turn_content := content;
     turn_request_id := Some request_id |}.

(** [process_message], lines 59-74. *)
Definition process_message (prompt : pyval) : M unit :=
  append_message (user_turn prompt) ;;
  emit (EvChatMessage "user") ;;
  emit (EvMarkdown prompt) ;;
  emit (EvChatMessage "assistant") ;;
  emit (EvSpinner "Generating response...") ;;
  response <- send_message prompt ;;
  request_id <- lift (py_get response "request_id" PNone) ;;
  message <- lift (py_get response "message" (PDict [])) ;;
  content <- lift (py_get message "content" (PList [])) ;;
  display_content content request_id None ;;
  append_message (assistant_turn content request_id).

(** Lines 126-132: the transcript is drawn again on every run. *)
Definition display_existing_messages : M unit :=
  s <- get_session ;;
  for_enumerate 0 (messages s)
    (fun message_index message =>
       emit (EvChatMessage (turn_role message)) ;;
       display_content (turn_content message) (turn_get_request_id message)
         (Some message_index)).

(** Lines 135-136. *)
Definition process_user_input : M unit :=
  emit (EvChatInput "What is your question?") ;;
  match chat_input env with
  | Some user_input =>
      if truthy (PStr user_input) then process_message (PStr user_input) else ret tt
  | None => ret tt
  end.

(** Lines 139-141. *)
Definition handle_active_suggestion : M unit :=
  s <- get_session ;;
  if truthy (active_suggestion s) then
    process_message (active_suggestion s) ;;
    set_active_suggestion PNone
  else ret tt.

(** Lines 126-141, run on an initialised session. *)
Definition page_body : M unit :=
  display_existing_messages ;;
  process_user_input ;;
  handle_active_suggestion.

End Page.

(* ===================================================================== *)
(** ** The script as a whole: one run of the page *)
(* ===================================================================== *)

(** The three attributes that lines 121-123 create together. *)
Record chat_state : Type := {
  cs_messages : list turn;
  cs_suggestions : list pyval;
  cs_active_suggestion : pyval
}.

(** [st.session_state] as Streamlit keeps it between runs: [None] is an
    attribute that is not there yet ([CONN] may also be there and [None]). *)
Record session_state : Type := {
  ss_CONN : option connection;
  ss_chat : option chat_state
}.

Definition fresh_session_state : session_state :=
  {| ss_CONN := None; ss_chat := None |}.

Definition fresh_chat : chat_state :=
  {| cs_messages := []; cs_suggestions := []; cs_active_suggestion := PNone |}.

Definition thaw (conn : connection) (c : chat_state) : session :=
  {| CONN := conn; messages := cs_messages c;
     suggestions := cs_suggestions c; active_suggestion := cs_active_suggestion c |}.

Definition freeze (s : session) : session_state :=
  {| ss_CONN := Some (CONN s);
     ss_chat := Some {| cs_messages := messages s;
                        cs_suggestions := suggestions s;
                        cs_active_suggestion := active_suggestion s |} |}.

(** [snowflake_config[k]] at the top level of the script. *)
Definition cfg_item (env : environment) (cfg : config) (k : string) : result string :=
  match dict_get cfg k with
  | Some v => Ok v
  | None => Raise (KeyError (secrets_key_error env k))
  end.

Definition rbind {A B : Type} (r : result A) (f : A -> result B) : result B :=
  match r with
  | Ok a => f a
  | Raise e => Raise e
  end.

(** The keyword arguments of lines 18-24, evaluated in the order written. *)
Definition connect_kwargs (env : environment) (cfg : config) : result connect_args :=
  rbind (cfg_item env cfg "user") (fun user =>
  rbind (cfg_item env cfg "password") (fun password =>
  rbind (cfg_item env cfg "account") (fun account =>
  rbind (cfg_item env cfg "warehouse") (fun warehouse =>
  rbind (cfg_item env cfg "database") (fun database =>
  rbind (cfg_item env cfg "schema") (fun schema =>
  rbind (cfg_item env cfg "role") (fun role =>
  Ok {| arg_user := user; arg_password := password; arg_account := account;
        arg_warehouse := warehouse; arg_database := database;
        arg_schema := schema; arg_role := role |}))))))).

(** Lines 15-29.  A connection kept from an earlier run is reused; else one
    is opened, and any [Exception] on the way ends the run with a banner. *)
Definition initialize_connection (env : environment) (cfg : config)
  (ss : session_state) : result connection * list event :=
  match ss_CONN ss with
  | Some conn => (Ok conn, [])
  | None =>
      match rbind (connect_kwargs env cfg) (fun args => of_attempt (connect env args)) with
      | Ok conn => (Ok conn, [EvSuccess "Connected to Snowflake successfully!"])
      | Raise e =>
          if is_Exception e then
            (Raise StopException,
             [EvError ("Failed to connect to Snowflake: " ++ exn_str e)%string])
          else (Raise e, [])
      end
  end.

Definition secrets_missing_banner : string :=
  "Snowflake configuration not found in secrets.toml. Ensure the secrets file is properly configured.".

(** One run of the script, top to bottom.  The result is [Ok tt] when the
    run reaches the last line, [Raise StopException] when [st.stop()] ended
    it, and [Raise e] when [e] escaped to Streamlit. *)
Definition run_page (env : environment) (ss : session_state)
  : result unit * session_state * list event :=
  match secrets env with
  | None => (Raise StopException, ss, [EvError secrets_missing_banner])
  | Some snowflake_config =>
      match initialize_connection env snowflake_config ss with
      | (Raise e, t1) => (Raise e, ss, t1)
      | (Ok conn, t1) =>
          let ss1 := {| ss_CONN := Some conn; ss_chat := ss_chat ss |} in
          match dict_get snowflake_config "file" with
          | None =>
              (Raise (KeyError (secrets_key_error env "file")), ss1,
               t1 ++ [EvTitle "Cortex Analyst"])
          | Some file =>
              let chat :=
                match ss_chat ss with
                | Some c => c
                | None => fresh_chat
                end in
              match page_body env snowflake_config (thaw conn chat) with
              | (r, s', t2) =>
                  (r, freeze s',
                   t1 ++ [EvTitle "Cortex Analyst";
                          EvMarkdown (PStr ("Semantic Model: `" ++ file ++ "`")%string)]
                      ++ t2)
              end
          end
      end
  end.

(* ===================================================================== *)
(** ** Sample environments *)
(* ===================================================================== *)

Module Samples.

Definition full_config : config :=
  [("user", "u"); ("password", "p"); ("account", "acct"); ("warehouse", "wh");
   ("database", "DB"); ("schema", "SC"); ("role", "r"); ("host", "h.example");
   ("stage", "STG"); ("file", "model.yaml")].

Definition conn0 : connection := {| rest_token := "tok" |}.

Definition revenue_reply : pyval :=
  PDict [("message",
          PDict [("content",
                  PList [PDict [("type", PStr "text");
                                ("text", PStr "Revenue is $5M")]])])].

Definition ok_response : response :=
  {| status_code := 200; header_request_id := Some "abc-123";
     resp_text := "{}"; resp_json := Returned revenue_reply |}.

Definition failed_response : response :=
  {| status_code := 500; header_request_id := None;
     resp_text := "boom"; resp_json := Failed "not json" |}.

Definition empty_frame : DataFrame :=
  {| df_index := None; df_columns := []; df_rows := [] |}.

(** The sentence of the secrets mapping for a key it does not hold. *)
Definition no_such_secret (k : string) : string :=
  ("st.secrets has no key " ++ dquote ++ k ++ dquote
   ++ ". Did you forget to add it to secrets.toml?")%string.

Definition env_of (cfg : option config) (resp : attempt response)
  (pressed : string -> bool) (input : option string) : environment :=
  {| secrets := cfg;
     secrets_key_error := no_such_secret;
     connect := fun _ => Returned conn0;
     requests_post := fun _ => resp;
     read_sql_query := fun _ _ => Returned empty_frame;
     button_pressed := pressed;
     chat_input := input |}.

Definition quiet : string -> bool := fun _ => false.

Definition sales_frame : DataFrame :=
  {| df_index := None;
     df_columns := ["month"; "revenue"];
     df_rows := [[PStr "jan"; PInt 10]; [PStr "feb"; PInt 20]] |}.

Definition sql_item : pyval :=
  PDict [("type", PStr "sql");
         ("statement", PStr "SELECT month, revenue FROM sales")].

(** A configuration with no ["stage"] entry. *)
Definition config_without_stage : config :=
  [("user", "u"); ("password", "p"); ("account", "acct"); ("warehouse", "wh");
   ("database", "DB"); ("schema", "SC"); ("role", "r"); ("host", "h.example");
   ("file", "model.yaml")].

(** A configuration with no ["user"] entry. *)
Definition config_without_user : config :=
  [("password", "p"); ("account", "acct"); ("warehouse", "wh");
   ("database", "DB"); ("schema", "SC"); ("role", "r"); ("host", "h.example");
   ("stage", "STG"); ("file", "model.yaml")].

(** A transcript whose answer offers two follow-ups, the second of them
    the empty string. *)
Definition offer_log : list turn :=
  [user_turn (PStr "What is total revenue?");
   assistant_turn
     (PList [PDict [("type", PStr "suggestions");
                    ("suggestions", PList [PStr "Show revenue by month"; PStr ""])]])
     (PStr "abc-123")].

Definition offer_session : session :=
  {| CONN := conn0; messages := offer_log; suggestions := [];
     active_suggestion := PNone |}.

(** The button with the given key was pressed, and no other. *)
Definition pressed_only (key : string) : string -> bool :=
  fun k => String.eqb k key.

(** A reply that offers a follow-up. *)
Definition offer_response : response :=
  {| status_code := 200; header_request_id := Some "abc-123";
     resp_text := "{}";
     resp_json :=
       Returned
         (PDict [("message",
                  PDict [("content",
                          PList [PDict [("type", PStr "text");
                                        ("text", PStr "Revenue is $5M")];
                                 PDict [("type", PStr "suggestions");
                                        ("suggestions",
                                         PList [PStr "Show revenue by month"])]])])]) |}.

Definition env_sql : environment :=
  {| secrets := Some full_config;
     secrets_key_error := no_such_secret;
     connect := fun _ => Returned conn0;
     requests_post := fun _ => Failed "unreachable";
     read_sql_query := fun _ _ => Returned sales_frame;
     button_pressed := quiet;
     chat_input := None |}.

Definition session0 : session :=
  {| CONN := conn0; messages := []; suggestions := []; active_suggestion := PNone |}.

(** Three runs of the page in one browser session: a question is typed,
    then the follow-up button of the answer is pressed, then nothing. *)
Definition env_ask : environment :=
  env_of (Some full_config) (Returned offer_response) quiet
    (Some "What is total revenue?").

Definition env_press : environment :=
  env_of (Some full_config) (Returned ok_response) (pressed_only "1_0") None.

Definition env_idle : environment :=
  env_of (Some full_config) (Returned ok_response) quiet None.

End Samples.

(* ===================================================================== *)
(** ** Vocabulary of the statements *)
(* ===================================================================== *)

(** *** Runs and what they show *)

(** The three components of a run. *)
Definition outcome {A : Type} (x : result A * session * list event) : result A :=
  fst (fst x).
Definition final {A : Type} (x : result A * session * list event) : session :=
  snd (fst x).
Definition shown {A : Type} (x : result A * session * list event) : list event :=
  snd x.

(** [prepend t x]: the run [x] with the events [t] shown before its own. *)
Definition prepend {A : Type} (t : list event) (x : result A * session * list event)
  : result A * session * list event :=
  (outcome x, final x, t ++ shown x).

(** The HTTP requests among the events of a run. *)
Fixpoint posts (t : list event) : list request :=
  match t with
  | [] => []
  | EvPost req :: rest => req :: posts rest
  | _ :: rest => posts rest
  end.

(** What the page shows for a prompt before it calls the dispatcher. *)
Definition prompt_events (prompt : pyval) : list event :=
  [EvChatMessage "user"; EvMarkdown prompt;
   EvChatMessage "assistant"; EvSpinner "Generating response..."].

(** The collapsed panel that comes before the blocks. *)
Definition request_id_panel (request_id : pyval) : list event :=
  if truthy request_id then [EvExpander "Request ID" false; EvMarkdown request_id]
  else [].

(** *** Relations between sessions *)

(** A computation is [stable] for a relation on sessions when every run of
    it relates the session it starts in to the session it ends in, whether
    it returns or raises. *)
Definition stable (R : session -> session -> Prop) {A : Type} (m : M A) : Prop :=
  forall s, R s (final (m s)).

(** [frame]: the log, the connection and the [suggestions] attribute are
    what they were; only the pending-suggestion slot may differ. *)
Definition frame (s s' : session) : Prop :=
  CONN s' = CONN s /\ messages s' = messages s /\ suggestions s' = suggestions s.

(** The slot is what it was. *)
Definition same_slot (s s' : session) : Prop :=
  active_suggestion s' = active_suggestion s.

(** The two sessions hold the same connection. *)
Definition same_conn (s s' : session) : Prop := CONN s = CONN s'.

(** Two runs of a [uniform] computation from sessions with the same
    connection end the same way and show the same events. *)
Definition uniform {A : Type} (m : M A) : Prop :=
  forall s s', same_conn s s' ->
    outcome (m s) = outcome (m s')
    /\ shown (m s) = shown (m s')
    /\ same_conn (final (m s)) (final (m s')).

(** *** The exchange with the analyst service *)

(** The reply read off the outcome of the one HTTP exchange, following the
    words of the contract: a status below 400 with a JSON object as body
    gives the object with ["request_id"] set from the response header;
    a status of 400 or more, a failed call, a body that is not JSON or not
    an object give nothing. *)
Definition exchange_succeeded (x : attempt response) : option (list (string * pyval)) :=
  match x with
  | Returned resp =>
      if Z.ltb (status_code resp) 400 then
        match resp_json resp with
        | Returned (PDict kv) =>
            Some (dict_set kv "request_id" (opt_str (header_request_id resp)))
        | _ => None
        end
      else None
  | Failed _ => None
  end.

Definition reply_of_exchange (x : attempt response) : pyval :=
  match exchange_succeeded x with
  | Some kv => PDict kv
  | None => PDict []
  end.

(** The two ways the one exchange can go wrong. *)
Definition http_error (x : attempt response) : Prop :=
  exists resp, x = Returned resp /\ (400 <= status_code resp)%Z.

(** An exception inside the [try]: the call itself fails, or the body of a
    reply with status below 400 does not parse to a JSON object. *)
Definition exception_raised (x : attempt response) : Prop :=
  (exists msg, x = Failed msg)
  \/ (exists resp, x = Returned resp /\ (status_code resp < 400)%Z
                   /\ forall kv, resp_json resp <> Returned (PDict kv)).

(** [d.get(k, default)] on the fields of a dict. *)
Definition get_or (kv : list (string * pyval)) (k : string) (default : pyval) : pyval :=
  match dict_get kv k with
  | Some x => x
  | None => default
  end.

(** *** Start-up *)

(** The ten entries the page reads from the configuration. *)
Definition config_keys : list string :=
  ["user"; "password"; "account"; "warehouse"; "database"; "schema"; "role";
   "host"; "stage"; "file"].

(** The seven of them that go into [snowflake.connector.connect]. *)
Definition connection_keys : list string :=
  ["user"; "password"; "account"; "warehouse"; "database"; "schema"; "role"].

(** A run that was halted by [st.stop()] with one error banner on the page
    and nothing else. *)
Definition halted_with_error (x : result unit * session_state * list event) : Prop :=
  fst (fst x) = Raise StopException /\ exists msg, snd x = [EvError msg].

(** *** Widget keys *)

(** The character [c] occurs in [s]. *)
Fixpoint contains (c : ascii) (s : string) : bool :=
  match s with
  | EmptyString => false
  | String c' rest => Ascii.eqb c' c || contains c rest
  end.

(** The separator of the two numbers in a widget key. *)
Definition underscore : ascii := ascii_of_nat 95.

(** *** The transcript *)

(** The body of the loop of lines 126-132. *)
Definition rerender_body (env : environment) (i : nat) (t : turn) : M unit :=
  emit (EvChatMessage (turn_role t)) ;;
  display_content env (turn_content t) (turn_get_request_id t) (Some i).

(** What the loop of lines 126-132 shows for the turn at position [i]. *)
Definition render_turn (env : environment) (s : session) (i : nat) (t : turn)
  : list event :=
  EvChatMessage (turn_role t)
    :: shown (display_content env (turn_content t) (turn_get_request_id t) (Some i) s).

(** The same for the turns [l], which sit at positions [i], [i+1], ... *)
Fixpoint render_turns (env : environment) (s : session) (i : nat) (l : list turn)
  : list event :=
  match l with
  | [] => []
  | t :: rest => render_turn env s i t ++ render_turns env s (S i) rest
  end.

(** The turn at position [i] is drawn without an exception. *)
Definition turn_displays (env : environment) (s : session) (i : nat) (t : turn) : Prop :=
  outcome (display_content env (turn_content t) (turn_get_request_id t) (Some i) s)
  = Ok tt.

(** The session after a series of runs of lines 126-141, one per
    environment, each run starting where the one before ended. *)
Fixpoint reruns (envs : list environment) (cfg : config) (s : session) : session :=
  match envs with
  | [] => s
  | env :: rest => reruns rest cfg (final (page_body env cfg s))
  end.

(** *** Further vocabulary: traces, logs and series of runs *)

(** The error banners among the events of a run. *)
Fixpoint banners (t : list event) : list string :=
  match t with
  | [] => []
  | EvError msg :: rest => msg :: banners rest
  | _ :: rest => banners rest
  end.

(** The widget keys of the buttons among the events of a run. *)
Fixpoint button_keys (t : list event) : list string :=
  match t with
  | [] => []
  | EvButton _ key :: rest => key :: button_keys rest
  | _ :: rest => button_keys rest
  end.




(** Every event a computation shows satisfies [P], from whatever session
    it is run and whether it returns or raises. *)
Definition shows_only (P : event -> Prop) {A : Type} (m : M A) : Prop :=
  forall s, Forall P (shown (m s)).

Definition not_a_post (e : event) : Prop :=
  match e with
  | EvPost _ => False
  | _ => True
  end.

(** The shape of a log that [process_message] alone has written: a series
    of questions, each followed by its answer unless the call that asked it
    raised. *)
Inductive transcript : list turn -> Prop :=
| transcript_empty : transcript []
| transcript_asked log prompt :
    transcript log -> transcript (log ++ [user_turn prompt])
| transcript_answered log prompt content request_id :
    transcript log ->
    transcript (log ++ [user_turn prompt; assistant_turn content request_id]).

(** [extends s s']: the session [s'] has the connection and the
    [suggestions] attribute of [s], and its log is the log of [s] followed
    by a transcript. *)
Definition extends (s s' : session) : Prop :=
  CONN s' = CONN s
  /\ suggestions s' = suggestions s
  /\ exists tail, messages s' = messages s ++ tail /\ transcript tail.

(** The five entries [send_message] reads, in the order it reads them. *)
Definition dispatcher_keys : list string :=
  ["database"; "schema"; "stage"; "file"; "host"].

(** The environment with another connector. *)
Definition with_connect (c : connect_args -> attempt connection)
  (env : environment) : environment :=
  {| secrets := secrets env;
     secrets_key_error := secrets_key_error env;
     connect := c;
     requests_post := requests_post env;
     read_sql_query := read_sql_query env;
     button_pressed := button_pressed env;
     chat_input := chat_input env |}.

(** The three components of a run of the whole script. *)
Definition page_outcome (x : result unit * session_state * list event) : result unit :=
  fst (fst x).
Definition page_state (x : result unit * session_state * list event) : session_state :=
  snd (fst x).
Definition page_shown (x : result unit * session_state * list event) : list event :=
  snd x.

(** The session state after a series of runs of the script, one per
    environment. *)
Fixpoint run_pages (envs : list environment) (ss : session_state) : session_state :=
  match envs with
  | [] => ss
  | env :: rest => run_pages rest (page_state (run_page env ss))
  end.

(** The log kept in a session state, empty before lines 120-123 ran. *)
Definition stored_log (ss : session_state) : list turn :=
  match ss_chat ss with
  | Some c => cs_messages c
  | None => []
  end.

(* ===================================================================== *)
(** ** Reasoning about runs *)
(* ===================================================================== *)

Lemma prepend_pair {A : Type} t (r : result A) s t' :
  prepend t (r, s, t') = (r, s, t ++ t').
Proof. reflexivity. Qed.

Lemma outcome_triple {A : Type} (r : result A) s t : outcome (r, s, t) = r.
Proof. reflexivity. Qed.

Lemma final_triple {A : Type} (r : result A) s t : final (r, s, t) = s.
Proof. reflexivity. Qed.

Lemma shown_triple {A : Type} (r : result A) s t : shown (r, s, t) = t.
Proof. reflexivity. Qed.

Lemma outcome_prepend {A : Type} t (x : result A * session * list event) :
  outcome (prepend t x) = outcome x.
Proof. reflexivity. Qed.

Lemma final_prepend {A : Type} t (x : result A * session * list event) :
  final (prepend t x) = final x.
Proof. reflexivity. Qed.

Lemma shown_prepend {A : Type} t (x : result A * session * list event) :
  shown (prepend t x) = t ++ shown x.
Proof. reflexivity. Qed.

Ltac project :=
  rewrite ?outcome_prepend, ?final_prepend, ?shown_prepend,
    ?outcome_triple, ?final_triple, ?shown_triple.

Lemma bind_ret_l {A B : Type} (a : A) (f : A -> M B) s : bind (ret a) f s = f a s.
Proof. unfold bind, ret. destruct (f a s) as [[r s2] t2]; reflexivity. Qed.

Lemma bind_raise_l {A B : Type} (e : exn) (f : A -> M B) s :
  bind (raise e) f s = (Raise e, s, []).
Proof. reflexivity. Qed.

Lemma bind_emit {B : Type} (e : event) (f : unit -> M B) s :
  bind (emit e) f s = prepend [e] (f tt s).
Proof. unfold bind, emit, prepend. destruct (f tt s) as [[r s2] t2]; reflexivity. Qed.

Lemma emit_run e s : emit e s = (Ok tt, s, [e]).
Proof. reflexivity. Qed.

Lemma bind_get_session {B : Type} (f : session -> M B) s :
  bind get_session f s = f s s.
Proof. unfold bind, get_session. destruct (f s s) as [[r s2] t2]; reflexivity. Qed.

Lemma bind_run {A B : Type} (m : M A) (f : A -> M B) s :
  bind m f s
  = match outcome (m s) with
    | Ok a => prepend (shown (m s)) (f a (final (m s)))
    | Raise e => (Raise e, final (m s), shown (m s))
    end.
Proof.
  unfold bind, prepend, outcome, final, shown.
  destruct (m s) as [[[a | e] s1] t1]; cbn [fst snd]; [| reflexivity].
  destruct (f a s1) as [[r s2] t2]; reflexivity.
Qed.

Lemma final_bind {A B : Type} (m : M A) (f : A -> M B) s :
  final (bind m f s)
  = match outcome (m s) with
    | Ok a => final (f a (final (m s)))
    | Raise _ => final (m s)
    end.
Proof. rewrite bind_run. destruct (outcome (m s)); reflexivity. Qed.

Ltac run_step :=
  first [ rewrite bind_ret_l | rewrite bind_raise_l | rewrite bind_emit
        | rewrite bind_get_session | rewrite prepend_pair ].

(** Every combinator of the monad keeps a reflexive and transitive
    relation stable. *)
Section Stability.

Variable R : session -> session -> Prop.
Hypothesis R_refl : forall s, R s s.
Hypothesis R_trans : forall s1 s2 s3, R s1 s2 -> R s2 s3 -> R s1 s3.

Lemma stable_ret {A : Type} (a : A) : stable R (ret a).
Proof. intros s; apply R_refl. Qed.

Lemma stable_raise {A : Type} (e : exn) : stable R (@raise A e).
Proof. intros s; apply R_refl. Qed.

Lemma stable_lift {A : Type} (r : result A) : stable R (lift r).
Proof. destruct r; intros s; apply R_refl. Qed.

Lemma stable_emit (e : event) : stable R (emit e).
Proof. intros s; apply R_refl. Qed.

Lemma stable_get_session : stable R get_session.
Proof. intros s; apply R_refl. Qed.

Lemma stable_bind {A B : Type} (m : M A) (f : A -> M B) :
  stable R m -> (forall a, stable R (f a)) -> stable R (bind m f).
Proof.
  intros Hm Hf s. specialize (Hm s). unfold bind.
  destruct (m s) as [[[a | e] s1] t1]; cbn in *.
  - specialize (Hf a s1). destruct (f a s1) as [[r s2] t2]; cbn in *.
    eapply R_trans; eauto.
  - exact Hm.
Qed.

Lemma stable_try_except {A : Type} (body : M A) (handler : exn -> M A) :
  stable R body -> (forall e, stable R (handler e)) -> stable R (try_except body handler).
Proof.
  intros Hb Hh s. specialize (Hb s). unfold try_except.
  destruct (body s) as [[[a | e] s1] t1]; cbn in *; [exact Hb |].
  destruct (is_Exception e); cbn; [| exact Hb].
  specialize (Hh e s1). destruct (handler e s1) as [[r s2] t2]; cbn in *.
  eapply R_trans; eauto.
Qed.

Lemma stable_for_each {A : Type} (xs : list A) (body : A -> M unit) :
  (forall x, stable R (body x)) -> stable R (for_each xs body).
Proof.
  intros Hb. induction xs as [| x rest IH]; cbn [for_each].
  - apply stable_ret.
  - apply stable_bind; [apply Hb | intros _; exact IH].
Qed.

Lemma stable_for_enumerate {A : Type} (xs : list A) (body : nat -> A -> M unit) :
  (forall i x, stable R (body i x)) -> forall i, stable R (for_enumerate i xs body).
Proof.
  intros Hb. induction xs as [| x rest IH]; intros i; cbn [for_enumerate].
  - apply stable_ret.
  - apply stable_bind; [apply Hb | intros _; apply IH].
Qed.

Lemma stable_if {A : Type} (b : bool) (m1 m2 : M A) :
  stable R m1 -> stable R m2 -> stable R (if b then m1 else m2).
Proof. destruct b; auto. Qed.

End Stability.

(** Walks down a computation built from the combinators, given the proofs
    that the relation is reflexive and transitive; [leaf] closes the calls
    it knows. *)
Ltac stable_walk refl trans leaf :=
  repeat
    first
      [ leaf
      | lazymatch goal with
        | |- forall _, _ => intro
        | |- stable _ (ret _) => apply (stable_ret _ refl)
        | |- stable _ (raise _) => apply (stable_raise _ refl)
        | |- stable _ (lift _) => apply (stable_lift _ refl)
        | |- stable _ (emit _) => apply (stable_emit _ refl)
        | |- stable _ get_session => apply (stable_get_session _ refl)
        | |- stable _ (bind _ _) => apply (stable_bind _ trans)
        | |- stable _ (try_except _ _) => apply (stable_try_except _ trans)
        | |- stable _ (for_each _ _) => apply (stable_for_each _ refl trans)
        | |- stable _ (for_enumerate _ _ _) => apply (stable_for_enumerate _ refl trans)
        | |- stable _ (if _ then _ else _) => apply stable_if
        | |- stable _ (match ?x with _ => _ end) => destruct x
        end ].

Lemma frame_refl s : frame s s.
Proof. repeat split. Qed.

Lemma frame_trans s1 s2 s3 : frame s1 s2 -> frame s2 s3 -> frame s1 s3.
Proof. unfold frame; intros (-> & -> & ->) (-> & -> & ->); repeat split. Qed.

Lemma eq_trans_session (s1 s2 s3 : session) : s1 = s2 -> s2 = s3 -> s1 = s3.
Proof. congruence. Qed.

Lemma stable_set_active_suggestion v : stable frame (set_active_suggestion v).
Proof. intros s; repeat split. Qed.

Section PageFacts.

Variable env : environment.
Variable snowflake_config : config.

Lemma config_get_readonly k : stable eq (config_get env snowflake_config k).
Proof.
  unfold config_get. destruct (dict_get snowflake_config k); intros st; reflexivity.
Qed.

(** [send_message] does not touch the session. *)
Lemma send_message_readonly prompt : stable eq (send_message env snowflake_config prompt).
Proof.
  unfold send_message.
  stable_walk (@eq_refl session) eq_trans_session ltac:(apply config_get_readonly).
Qed.

Lemma display_frame_frame df : stable frame (display_frame df).
Proof.
  unfold display_frame, st_dataframe.
  stable_walk frame_refl frame_trans fail.
Qed.

Lemma display_suggestion_frame mi si v : stable frame (display_suggestion env mi si v).
Proof.
  unfold display_suggestion.
  stable_walk frame_refl frame_trans ltac:(apply stable_set_active_suggestion).
Qed.

Lemma display_item_frame mi item : stable frame (display_item env mi item).
Proof.
  unfold display_item.
  stable_walk frame_refl frame_trans
    ltac:(first [ apply display_suggestion_frame | apply display_frame_frame ]).
Qed.

(** [display_content] leaves the log alone, whatever it is given and
    whether or not it raises. *)
Lemma display_content_frame content request_id mi :
  stable frame (display_content env content request_id mi).
Proof.
  unfold display_content.
  stable_walk frame_refl frame_trans ltac:(apply display_item_frame).
Qed.

End PageFacts.

(* ===================================================================== *)
(** ** The dispatcher: [send_message] *)
(* ===================================================================== *)

Lemma dict_set_not_empty {V : Type} (kv : list (string * V)) k v : dict_set kv k v <> [].
Proof.
  destruct kv as [| [k' v'] rest]; cbn; [discriminate |].
  destruct (String.eqb k' k); discriminate.
Qed.

Lemma dict_get_set_same {V : Type} (kv : list (string * V)) k v :
  dict_get (dict_set kv k v) k = Some v.
Proof.
  induction kv as [| [k' v'] rest IH]; cbn.
  - rewrite String.eqb_refl; reflexivity.
  - destruct (String.eqb k' k) eqn:E; cbn.
    + rewrite String.eqb_refl; reflexivity.
    + rewrite E; exact IH.
Qed.

Lemma dict_get_set_other {V : Type} (kv : list (string * V)) k k' v :
  k' <> k -> dict_get (dict_set kv k v) k' = dict_get kv k'.
Proof.
  intros Hne. induction kv as [| [k0 v0] rest IH]; cbn.
  - destruct (String.eqb k k') eqn:E; [| reflexivity].
    apply String.eqb_eq in E; congruence.
  - destruct (String.eqb k0 k) eqn:E; cbn.
    + apply String.eqb_eq in E; subst k0.
      destruct (String.eqb k k') eqn:E'; [| reflexivity].
      apply String.eqb_eq in E'; congruence.
    + destruct (String.eqb k0 k'); [reflexivity | exact IH].
Qed.

(** With the five entries it reads in place, [send_message] is one POST of
    one request, followed by at most one banner; the session is left as it
    was and the value returned is a dict. *)
Lemma send_message_run env cfg prompt s database schema stage file host :
  dict_get cfg "database" = Some database ->
  dict_get cfg "schema" = Some schema ->
  dict_get cfg "stage" = Some stage ->
  dict_get cfg "file" = Some file ->
  dict_get cfg "host" = Some host ->
  let req :=
    {| req_url := ("https://" ++ host ++ "/api/v2/cortex/analyst/message")%string;
       req_json :=
         request_body prompt
           ("@" ++ database ++ "." ++ schema ++ "." ++ stage ++ "/" ++ file)%string;
       req_headers :=
         [("Authorization",
           ("Snowflake Token=" ++ dquote ++ rest_token (CONN s) ++ dquote)%string);
          ("Content-Type", "application/json")] |} in
  exists msgs,
    send_message env cfg prompt s
    = (Ok (reply_of_exchange (requests_post env req)), s, EvPost req :: map EvError msgs)
    /\ length msgs <= 1
    /\ (msgs = [] <-> exchange_succeeded (requests_post env req) <> None).
Proof.
  intros Hdb Hsc Hst Hf Hh req.
  unfold send_message, try_except, bind, config_get, reply_of_exchange, exchange_succeeded.
  rewrite Hdb, Hsc, Hst, Hf, Hh. cbn -[String.append request_body Z.ltb].
  fold req.
  destruct (requests_post env req) as [resp | msg]; cbn -[String.append request_body Z.ltb].
  - destruct (Z.ltb (status_code resp) 400); cbn -[String.append request_body].
    + destruct (resp_json resp) as [parsed | msg]; cbn -[String.append request_body].
      * destruct parsed; cbn -[String.append request_body];
          try (eexists [_]; repeat split; cbn; try lia; try discriminate; congruence).
        exists []; repeat split; cbn; try lia; discriminate.
      * eexists [_]; repeat split; cbn; try lia; try discriminate; congruence.
    + eexists [_]; repeat split; cbn; try lia; try discriminate; congruence.
  - eexists [_]; repeat split; cbn; try lia; try discriminate; congruence.
Qed.

(** Whatever the configuration holds and whatever the libraries do,
    [send_message] returns a dict, leaves the session as it was and has
    posted at most once. *)
Lemma send_message_total env cfg prompt s :
  exists kv t,
    send_message env cfg prompt s = (Ok (PDict kv), s, t) /\ length (posts t) <= 1.
Proof.
  unfold send_message, try_except, bind, config_get.
  repeat
    match goal with
    | |- context [dict_get cfg ?k] =>
        destruct (dict_get cfg k); cbn -[String.append request_body Z.ltb]
    end;
    try (do 2 eexists; split; [reflexivity | cbn; lia]).
  match goal with
  | |- context [requests_post env ?r] =>
      destruct (requests_post env r) as [resp | msg];
        cbn -[String.append request_body Z.ltb]
  end;
    [| do 2 eexists; split; [reflexivity | cbn; lia]].
  destruct (Z.ltb (status_code resp) 400); cbn -[String.append request_body];
    [| do 2 eexists; split; [reflexivity | cbn; lia]].
  destruct (resp_json resp) as [parsed | msg]; cbn -[String.append request_body];
    [| do 2 eexists; split; [reflexivity | cbn; lia]].
  destruct parsed; cbn -[String.append request_body];
    do 2 eexists; (split; [reflexivity | cbn; lia]).
Qed.

Lemma exchange_succeeded_none x :
  exchange_succeeded x = None <-> http_error x \/ exception_raised x.
Proof.
  unfold exchange_succeeded, http_error, exception_raised.
  destruct x as [resp | msg].
  - destruct (Z.ltb_spec (status_code resp) 400) as [Hlt | Hge].
    + destruct (resp_json resp) as [parsed | msg] eqn:Hj.
      * destruct parsed;
          try (split; intros _; [| reflexivity];
               right; right; exists resp; repeat split; auto; intros kv0; congruence).
        split; intros H; [discriminate |].
        destruct H as [(r & Hr & Hs) | [(m & Hm) | (r & Hr & _ & Hn)]].
        -- injection Hr as <-. lia.
        -- discriminate.
        -- injection Hr as <-. exfalso. eapply Hn. exact Hj.
      * split; intros _; [| reflexivity].
        right; right; exists resp; repeat split; auto. intros kv; congruence.
    + split; intros _; [| reflexivity].
      left; exists resp; split; auto.
  - split; intros _; [| reflexivity].
    right; left; exists msg; reflexivity.
Qed.

Lemma first_missing_key (cfg : config) (keys : list string) (k : string) :
  In k keys -> dict_get cfg k = None ->
  exists before k' after,
    keys = before ++ k' :: after
    /\ dict_get cfg k' = None
    /\ Forall (fun x => dict_get cfg x <> None) before.
Proof.
  induction keys as [| x keys IH]; intros Hin Hmiss; [contradiction |].
  destruct (dict_get cfg x) as [v |] eqn:Hx.
  - destruct Hin as [-> | Hin]; [congruence |].
    destruct (IH Hin Hmiss) as (before & k' & after & -> & Hk' & Hall).
    exists (x :: before), k', after. repeat split; auto.
    constructor; [congruence | exact Hall].
  - exists [], x, keys. repeat split; auto.
Qed.

(** The run of [send_message] when the entry [k'] is missing and the
    entries read before it are there. *)
Lemma send_message_stops_at cfg before k' after :
  dispatcher_keys = before ++ k' :: after ->
  dict_get cfg k' = None ->
  Forall (fun x => dict_get cfg x <> None) before ->
  forall env prompt s,
    send_message env cfg prompt s
    = (Ok (PDict []), s,
       [EvError ("Error sending message: '" ++ secrets_key_error env k' ++ "'")%string]).
Proof.
  intros Hkeys Hk' Hall env prompt s.
  { unfold dispatcher_keys in Hkeys.
    unfold send_message, try_except, bind, config_get.
    destruct before as [| b0 before]; cbn in Hkeys; injection Hkeys as <- Hkeys;
      [rewrite Hk'; reflexivity |].
    apply Forall_cons_iff in Hall as [H0 Hall].
    destruct (dict_get cfg "database") eqn:E0; [| congruence]. clear H0.
    destruct before as [| b1 before]; cbn in Hkeys; injection Hkeys as <- Hkeys;
      [rewrite Hk'; reflexivity |].
    apply Forall_cons_iff in Hall as [H1 Hall].
    destruct (dict_get cfg "schema") eqn:E1; [| congruence]. clear H1.
    destruct before as [| b2 before]; cbn in Hkeys; injection Hkeys as <- Hkeys;
      [rewrite Hk'; reflexivity |].
    apply Forall_cons_iff in Hall as [H2 Hall].
    destruct (dict_get cfg "stage") eqn:E2; [| congruence]. clear H2.
    destruct before as [| b3 before]; cbn in Hkeys; injection Hkeys as <- Hkeys;
      [rewrite Hk'; reflexivity |].
    apply Forall_cons_iff in Hall as [H3 Hall].
    destruct (dict_get cfg "file") eqn:E3; [| congruence]. clear H3.
    destruct before as [| b4 before]; cbn in Hkeys; injection Hkeys as <- Hkeys;
      [rewrite Hk'; reflexivity |].
    destruct before; discriminate. }
Qed.

(** A missing entry, whichever it is, ends the call with the empty reply
    and one banner before any request is made. *)
Lemma send_message_without_entry env cfg prompt s k :
  In k dispatcher_keys -> dict_get cfg k = None ->
  exists msg, send_message env cfg prompt s = (Ok (PDict []), s, [EvError msg]).
Proof.
  intros Hin Hmiss.
  destruct (first_missing_key cfg dispatcher_keys k Hin Hmiss)
    as (before & k' & after & Hkeys & Hk' & Hall).
  eexists. apply (send_message_stops_at cfg before k' after Hkeys Hk' Hall).
Qed.

(** Either one of the five entries is missing, or all five are there. *)
Lemma dispatcher_entries (cfg : config) :
  (exists k, In k dispatcher_keys /\ dict_get cfg k = None)
  \/ (exists database schema stage file host,
        dict_get cfg "database" = Some database
        /\ dict_get cfg "schema" = Some schema
        /\ dict_get cfg "stage" = Some stage
        /\ dict_get cfg "file" = Some file
        /\ dict_get cfg "host" = Some host).
Proof.
  destruct (dict_get cfg "database") as [database |] eqn:E0;
    [| left; exists "database"; split; [cbn; tauto | exact E0]].
  destruct (dict_get cfg "schema") as [schema |] eqn:E1;
    [| left; exists "schema"; split; [cbn; tauto | exact E1]].
  destruct (dict_get cfg "stage") as [stage |] eqn:E2;
    [| left; exists "stage"; split; [cbn; tauto | exact E2]].
  destruct (dict_get cfg "file") as [file |] eqn:E3;
    [| left; exists "file"; split; [cbn; tauto | exact E3]].
  destruct (dict_get cfg "host") as [host |] eqn:E4;
    [| left; exists "host"; split; [cbn; tauto | exact E4]].
  right. exists database, schema, stage, file, host. repeat split.
Qed.

Lemma dict_set_length {V : Type} (kv : list (string * V)) k v :
  length (dict_set kv k v)
  = match dict_get kv k with
    | Some _ => length kv
    | None => S (length kv)
    end.
Proof.
  induction kv as [| [k0 v0] kv IH]; [reflexivity |].
  cbn [dict_set dict_get]. destruct (String.eqb k0 k); [reflexivity |].
  cbn [List.length]. rewrite IH. destruct (dict_get kv k); reflexivity.
Qed.

(** C2, with the case of a missing configuration entry written in.
    [send_message] never raises to its caller, returns a dict and leaves
    the session alone.  When one of the five entries it reads is missing it
    makes no HTTP attempt and returns the empty dict.  Otherwise it makes
    exactly one HTTP attempt.  When the response to it has a status below
    400 and a JSON object as body, the dict returned has the header
    X-Snowflake-Request-Id ([None] when absent) under ["request_id"] and
    the fields of the body under every other key, and no further key.  The
    dict returned is empty exactly when the status is 400 or more or an
    exception occurred in the exchange. *)
Theorem send_message_contract env cfg prompt s :
  let run := send_message env cfg (PStr prompt) s in
  exists fields,
    outcome run = Ok (PDict fields)
    /\ final run = s
    /\ (((exists k, In k dispatcher_keys /\ dict_get cfg k = None)
         /\ posts (shown run) = []
         /\ fields = [])
        \/ ((forall k, In k dispatcher_keys -> dict_get cfg k <> None)
            /\ exists req,
                 posts (shown run) = [req]
                 /\ (forall resp body,
                       requests_post env req = Returned resp ->
                       (status_code resp < 400)%Z ->
                       resp_json resp = Returned (PDict body) ->
                       dict_get fields "request_id"
                       = Some (match header_request_id resp with
                               | Some id => PStr id
                               | None => PNone
                               end)
                       /\ (forall k, k <> "request_id" ->
                                     dict_get fields k = dict_get body k)
                       /\ length fields
                          = match dict_get body "request_id" with
                            | Some _ => length body
                            | None => S (length body)
                            end)
                 /\ (fields = []
                     <-> http_error (requests_post env req)
                         \/ exception_raised (requests_post env req)))).
Proof.
  intros run.
  destruct (dispatcher_entries cfg)
    as [(k & Hin & Hmiss)
       | (database & schema & stage & file & host & Hdb & Hsc & Hst & Hf & Hh)].
  - destruct (send_message_without_entry env cfg (PStr prompt) s k Hin Hmiss)
      as (msg & Hrun).
    exists []. subst run. rewrite Hrun. project.
    split; [reflexivity |]. split; [reflexivity |].
    left. split; [exists k; split; assumption |]. split; reflexivity.
  - destruct (send_message_run env cfg (PStr prompt) s _ _ _ _ _ Hdb Hsc Hst Hf Hh)
      as (msgs & Hrun & _ & _).
    match type of Hrun with _ = (_, _, EvPost ?r :: _) => set (req := r) in * end.
    exists (match exchange_succeeded (requests_post env req) with
            | Some kv => kv
            | None => []
            end).
    subst run. rewrite Hrun. project.
    split; [unfold reply_of_exchange;
            destruct (exchange_succeeded (requests_post env req)); reflexivity |].
    split; [reflexivity |].
    right. split.
    { intros k Hin. cbn in Hin.
      repeat (destruct Hin as [<- | Hin]; [congruence |]). contradiction. }
    exists req. split; [| split].
    + cbn [posts]. f_equal. clear. induction msgs; cbn; auto.
    + intros resp body Hp Hs Hj. unfold exchange_succeeded.
      rewrite Hp. apply Z.ltb_lt in Hs. rewrite Hs, Hj.
      split; [apply dict_get_set_same |].
      split; [intros k Hk; apply dict_get_set_other; exact Hk |].
      apply dict_set_length.
    + rewrite <- exchange_succeeded_none.
      destruct (exchange_succeeded (requests_post env req)) as [kv |] eqn:E.
      * split; [| discriminate]. intros ->. exfalso.
        unfold exchange_succeeded in E.
        destruct (requests_post env req) as [resp | msg]; [| discriminate].
        destruct (Z.ltb (status_code resp) 400); [| discriminate].
        destruct (resp_json resp) as [[ | | | | | kv0] | msg]; try discriminate.
        injection E as E. symmetry in E. eapply dict_set_not_empty; eauto.
      * split; reflexivity.
Qed.

Lemma send_message_contract_witness :
  let env := Samples.env_of (Some Samples.full_config) (Returned Samples.ok_response)
               Samples.quiet None in
  let run := send_message env Samples.full_config (PStr "What is total revenue?")
               Samples.session0 in
  exists fields req,
    outcome run = Ok (PDict fields)
    /\ posts (shown run) = [req]
    /\ requests_post env req = Returned Samples.ok_response
    /\ dict_get fields "request_id" = Some (PStr "abc-123")
    /\ dict_get fields "message" = dict_get
         [("message",
           PDict [("content",
                   PList [PDict [("type", PStr "text");
                                 ("text", PStr "Revenue is $5M")]])])]
         "message"
    /\ length fields = 2.
Proof.
  intros env run.
  destruct (send_message_contract env Samples.full_config "What is total revenue?"
              Samples.session0)
    as (fields & Hout & _ & [(_ & Hnone & _) | (_ & req & Hposts & Hmerge & _)]).
  - vm_compute in Hnone. discriminate.
  - exists fields, req.
    destruct (Hmerge Samples.ok_response
                [("message",
                  PDict [("content",
                          PList [PDict [("type", PStr "text");
                                        ("text", PStr "Revenue is $5M")]])])]
                eq_refl eq_refl eq_refl)
      as (Hid & Hother & Hlen).
    split; [exact Hout |]. split; [exact Hposts |]. split; [reflexivity |].
    split; [exact Hid |]. split; [apply Hother; discriminate | exact Hlen].
Defined.

(** C2 does not hold when a configuration entry is missing.  With every
    entry but ["stage"] in place and a service that would answer any request
    with status 200 and a JSON object, the call makes no HTTP attempt and
    returns the empty dict, although no status of 400 or more was received
    and no exception occurred in an exchange. *)
Lemma no_request_without_stage :
  let env := Samples.env_of (Some Samples.config_without_stage)
               (Returned Samples.ok_response) Samples.quiet None in
  let run := send_message env Samples.config_without_stage (PStr "hi") Samples.session0 in
  dict_get Samples.config_without_stage "stage" = None
  /\ posts (shown run) = []
  /\ outcome run = Ok (PDict [])
  /\ forall req,
       ~ http_error (requests_post env req)
       /\ ~ exception_raised (requests_post env req).
Proof.
  intros env run. split; [reflexivity |]. split; [reflexivity |].
  split; [reflexivity |].
  intros req. split.
  - intros (resp & Hresp & Hstatus). injection Hresp as <-. cbn in Hstatus. lia.
  - intros [(msg & Hmsg) | (resp & Hresp & _ & Hjson)]; [discriminate |].
    injection Hresp as <-. eapply Hjson. reflexivity.
Qed.

(** C7.  The one request [send_message] posts for prompt [p]: the URL is
    built from [host], the body holds the prompt as the single text block of
    a single user message next to the semantic-model path
    [@database.schema.stage/file], and the Authorization header carries the
    token of the session's connection. *)
Theorem send_message_request env cfg p s database schema stage file host :
  dict_get cfg "database" = Some database ->
  dict_get cfg "schema" = Some schema ->
  dict_get cfg "stage" = Some stage ->
  dict_get cfg "file" = Some file ->
  dict_get cfg "host" = Some host ->
  posts (shown (send_message env cfg (PStr p) s))
  = [ {| req_url := ("https://" ++ host ++ "/api/v2/cortex/analyst/message")%string;
         req_json :=
           PDict
             [("messages",
               PList [PDict [("role", PStr "user");
                             ("content", PList [PDict [("type", PStr "text");
                                                       ("text", PStr p)]])]]);
              ("semantic_model_file",
               PStr ("@" ++ database ++ "." ++ schema ++ "." ++ stage ++ "/" ++ file)%string)];
         req_headers :=
           [("Authorization",
             ("Snowflake Token=" ++ dquote ++ rest_token (CONN s) ++ dquote)%string);
            ("Content-Type", "application/json")] |} ].
Proof.
  intros Hdb Hsc Hst Hf Hh.
  destruct (send_message_run env cfg (PStr p) s _ _ _ _ _ Hdb Hsc Hst Hf Hh)
    as (msgs & Hrun & _ & _).
  rewrite Hrun. unfold shown; cbn [snd posts]. unfold request_body.
  f_equal. clear. induction msgs; cbn; auto.
Qed.

Lemma send_message_request_witness :
  let env := Samples.env_of (Some Samples.full_config) (Returned Samples.ok_response)
               Samples.quiet None in
  dict_get Samples.full_config "host" = Some "h.example"
  /\ map req_url (posts (shown (send_message env Samples.full_config (PStr "hi")
                                  Samples.session0)))
     = ["https://h.example/api/v2/cortex/analyst/message"].
Proof.
  intros env. split; [reflexivity |].
  rewrite (send_message_request env Samples.full_config "hi" Samples.session0
             "DB" "SC" "STG" "model.yaml" "h.example");
    reflexivity.
Defined.

(* ===================================================================== *)
(** ** The orchestrator: [process_message] *)
(* ===================================================================== *)

(** One call of [process_message], cut at its two calls: the dispatcher
    always comes back with a dict [kv]; what happens next is decided by the
    shape of [kv] and by the renderer. *)
Lemma process_message_run env cfg prompt s :
  let s0 := push_message (user_turn prompt) s in
  exists kv t,
    send_message env cfg prompt s0 = (Ok (PDict kv), s0, t)
    /\ let request_id := get_or kv "request_id" PNone in
       process_message env cfg prompt s
       = match py_get (get_or kv "message" (PDict [])) "content" (PList []) with
         | Raise e => (Raise e, s0, prompt_events prompt ++ t)
         | Ok content =>
             let shown_run := display_content env content request_id None s0 in
             match outcome shown_run with
             | Ok _ =>
                 (Ok tt, push_message (assistant_turn content request_id) (final shown_run),
                  prompt_events prompt ++ t ++ shown shown_run)
             | Raise e =>
                 (Raise e, final shown_run, prompt_events prompt ++ t ++ shown shown_run)
             end
         end.
Proof.
  intros s0.
  destruct (send_message_total env cfg prompt s0) as (kv & t & Hsend & _).
  exists kv, t. split; [exact Hsend |].
  unfold process_message.
  unfold bind at 1; cbn [append_message]. fold s0.
  do 4 (unfold bind at 1; cbn [emit]).
  unfold bind at 1. rewrite Hsend.
  do 2 (unfold bind at 1; cbn [py_get lift ret]).
  unfold get_or.
  destruct (py_get _ "content" (PList [])) as [content | e]; cbn -[display_content].
  - unfold bind at 1.
    destruct (display_content env content _ None s0) as [[[[] | e] s1] t1];
      cbn -[display_content].
    + rewrite app_nil_r. reflexivity.
    + reflexivity.
  - rewrite app_nil_r. reflexivity.
Qed.

(** C1.  One call of [process_message] on a prompt string appends the user
    turn (role "user", one text block holding the prompt) and then, when the
    call returns, one assistant turn; when the call raises, the user turn is
    all that was appended.  Nothing else happens to the log, and the
    connection and the [suggestions] attribute are not touched. *)
Theorem process_message_appends env cfg p s :
  let run := process_message env cfg (PStr p) s in
  let user :=
    {| turn_role := "user";
       turn_content := PList [PDict [("type", PStr "text"); ("text", PStr p)]];
       turn_request_id := None |} in
  CONN (final run) = CONN s
  /\ suggestions (final run) = suggestions s
  /\ match outcome run with
     | Ok _ =>
         exists content request_id,
           messages (final run)
           = messages s ++ [user; {| turn_role := "assistant";
                                     turn_content := content;
                                     turn_request_id := Some request_id |}]
     | Raise _ => messages (final run) = messages s ++ [user]
     end.
Proof.
  intros run user.
  destruct (process_message_run env cfg (PStr p) s) as (kv & t & _ & Hrun).
  cbv zeta in Hrun. subst run. rewrite Hrun. clear Hrun.
  set (s0 := push_message (user_turn (PStr p)) s).
  destruct (py_get (get_or kv "message" (PDict [])) "content" (PList []))
    as [content | e].
  - pose proof (display_content_frame env content (get_or kv "request_id" PNone) None s0)
      as (Hc & Hm & Hs).
    destruct (outcome (display_content env content _ None s0));
      unfold outcome, final in *; cbn [fst snd push_message CONN suggestions messages];
      rewrite ?Hc, ?Hm, ?Hs; cbn [s0 push_message CONN suggestions messages];
      (split; [reflexivity | split; [reflexivity |]]).
    + exists content, (get_or kv "request_id" PNone).
      rewrite <- app_assoc. reflexivity.
    + reflexivity.
  - unfold outcome, final; cbn. repeat split.
Qed.



(* ===================================================================== *)
(** ** The renderer: SQL results *)
(* ===================================================================== *)

Lemma existsb_eqb_In c labels : existsb (String.eqb c) labels = true <-> In c labels.
Proof.
  rewrite existsb_exists. split.
  - intros (x & Hin & Heq). apply String.eqb_eq in Heq. subst x. exact Hin.
  - intros Hin. exists c. split; [exact Hin | apply String.eqb_refl].
Qed.

Lemma distinct_labels_NoDup labels : distinct_labels labels = true <-> NoDup labels.
Proof.
  induction labels as [| c rest IH]; cbn [distinct_labels].
  - split; [constructor | reflexivity].
  - rewrite andb_true_iff, negb_true_iff, IH. split.
    + intros (Hc & Hrest). constructor; [| exact Hrest].
      intros Hin. apply existsb_eqb_In in Hin. congruence.
    + intros Hnd. inversion Hnd as [| x l Hc Hrest]; subst. split; [| exact Hrest].
      destruct (existsb (String.eqb c) rest) eqn:E; [| reflexivity].
      apply existsb_eqb_In in E. contradiction.
Qed.

(** What [display_frame] shows for a frame with distinct column labels, by
    the number of rows. *)
Lemma display_frame_run df s :
  distinct_labels (df_columns df) = true ->
  display_frame df s
  = (Ok tt, s,
     if Nat.ltb 1 (length (df_rows df)) then
       [EvTabs ["Data"; "Line Chart"; "Bar Chart"];
        EvDataframe (Some "Data") df;
        EvLineChart (Some "Line Chart")
          (if Nat.ltb 1 (length (df_columns df)) then set_index_first df else df);
        EvBarChart (Some "Bar Chart")
          (if Nat.ltb 1 (length (df_columns df)) then set_index_first df else df)]
     else [EvDataframe None df]).
Proof.
  intros Hlabels. unfold display_frame, st_dataframe. rewrite Hlabels.
  destruct (Nat.ltb 1 (length (df_rows df))); reflexivity.
Qed.

(** With a label that occurs twice, the table call raises: the tabs are
    there when there is more than one row, and nothing else. *)
Lemma display_frame_refused df s :
  distinct_labels (df_columns df) = false ->
  display_frame df s
  = (Raise duplicate_labels_error, s,
     if Nat.ltb 1 (length (df_rows df)) then [EvTabs ["Data"; "Line Chart"; "Bar Chart"]]
     else []).
Proof.
  intros Hlabels. unfold display_frame, st_dataframe. rewrite Hlabels.
  destruct (Nat.ltb 1 (length (df_rows df))); reflexivity.
Qed.

(** An item that is an SQL block: the panel with the statement, then the
    query, then the views of its result. *)
Lemma display_item_sql env mi item statement df s :
  py_getitem item "type" = Ok (PStr "sql") ->
  py_getitem item "statement" = Ok statement ->
  read_sql_query env statement (CONN s) = Returned df ->
  display_item env mi item s
  = prepend
      [EvExpander "SQL Query" false; EvCode statement "sql";
       EvExpander "Results" true; EvSpinner "Running SQL..."]
      (display_frame df s).
Proof.
  intros Hty Hst Hq. unfold display_item.
  rewrite Hty, Hst. cbn [lift].
  rewrite bind_ret_l. change (py_eq_str (PStr "sql") "text") with false. cbv iota.
  rewrite bind_ret_l. change (py_eq_str (PStr "sql") "suggestions") with false. cbv iota.
  rewrite bind_ret_l. change (py_eq_str (PStr "sql") "sql") with true. cbv iota.
  repeat run_step. rewrite Hq. cbn [lift of_attempt]. repeat run_step.
  destruct (display_frame df s) as [[r s'] t]. reflexivity.
Qed.

(** C4, with the column labels taken into account.  An SQL block whose
    query gives a result set of N rows is shown as the statement panel
    followed by the views of the result.  When the column labels are
    pairwise distinct these are: three views when N > 1 (the table in the
    Data tab, a line chart and a bar chart), the two charts drawn from the
    frame indexed by its first column when it has more than one column and
    from the frame itself otherwise; the table alone, and no chart, when
    N <= 1.  When a label occurs twice the table call raises: the tabs are
    all that is drawn of the result when N > 1, and nothing when N <= 1. *)
Theorem sql_result_views env mi item statement df s :
  py_getitem item "type" = Ok (PStr "sql") ->
  py_getitem item "statement" = Ok statement ->
  read_sql_query env statement (CONN s) = Returned df ->
  let run := display_item env mi item s in
  let N := length (df_rows df) in
  let panel := [EvExpander "SQL Query" false; EvCode statement "sql";
                EvExpander "Results" true; EvSpinner "Running SQL..."] in
  (NoDup (df_columns df) ->
   exists views,
     outcome run = Ok tt
     /\ shown run = panel ++ views
     /\ (N > 1 ->
         exists chart_df,
           views = [EvTabs ["Data"; "Line Chart"; "Bar Chart"];
                    EvDataframe (Some "Data") df;
                    EvLineChart (Some "Line Chart") chart_df;
                    EvBarChart (Some "Bar Chart") chart_df]
           /\ (length (df_columns df) > 1 ->
               exists c cols,
                 df_columns df = c :: cols
                 /\ df_index chart_df = Some (c, map (hd PNone) (df_rows df))
                 /\ df_columns chart_df = cols
                 /\ df_rows chart_df = map (@tl pyval) (df_rows df))
           /\ (length (df_columns df) <= 1 -> chart_df = df))
     /\ (N <= 1 -> views = [EvDataframe None df]))
  /\ (~ NoDup (df_columns df) ->
      (exists e, outcome run = Raise e)
      /\ (N > 1 -> shown run = panel ++ [EvTabs ["Data"; "Line Chart"; "Bar Chart"]])
      /\ (N <= 1 -> shown run = panel)).
Proof.
  intros Hty Hst Hq run N panel.
  subst run. rewrite (display_item_sql env mi item statement df s Hty Hst Hq).
  fold panel. split.
  - intros Hlabels. apply distinct_labels_NoDup in Hlabels.
    rewrite (display_frame_run df s Hlabels). project.
    eexists. split; [reflexivity |]. split; [reflexivity |].
    fold N. split.
    + intros HN. apply Nat.ltb_lt in HN. rewrite HN.
      eexists. split; [reflexivity |]. split.
      * intros Hcols. apply Nat.ltb_lt in Hcols. rewrite Hcols.
        unfold set_index_first.
        destruct (df_columns df) as [| c cols] eqn:E; [cbn in Hcols; discriminate |].
        exists c, cols. cbn. repeat split.
      * intros Hcols. apply Nat.ltb_ge in Hcols. rewrite Hcols. reflexivity.
    + intros HN. apply Nat.ltb_ge in HN. rewrite HN. reflexivity.
  - intros Hlabels.
    assert (Hrefused : distinct_labels (df_columns df) = false).
    { destruct (distinct_labels (df_columns df)) eqn:E; [| reflexivity].
      exfalso. apply Hlabels, distinct_labels_NoDup, E. }
    rewrite (display_frame_refused df s Hrefused). project. fold N.
    split; [eexists; reflexivity |]. split.
    + intros HN. apply Nat.ltb_lt in HN. rewrite HN. reflexivity.
    + intros HN. apply Nat.ltb_ge in HN. rewrite HN. apply app_nil_r.
Qed.

Lemma sql_result_views_witness :
  let run := display_item Samples.env_sql 1 Samples.sql_item Samples.session0 in
  read_sql_query Samples.env_sql (PStr "SELECT month, revenue FROM sales")
    (CONN Samples.session0) = Returned Samples.sales_frame
  /\ NoDup (df_columns Samples.sales_frame)
  /\ exists views,
       shown run
       = [EvExpander "SQL Query" false;
          EvCode (PStr "SELECT month, revenue FROM sales") "sql";
          EvExpander "Results" true; EvSpinner "Running SQL..."] ++ views
       /\ length views = 4.
Proof.
  intros run. split; [reflexivity |].
  assert (Hlabels : NoDup (df_columns Samples.sales_frame))
    by (apply distinct_labels_NoDup; reflexivity).
  split; [exact Hlabels |].
  destruct (sql_result_views Samples.env_sql 1 Samples.sql_item
              (PStr "SELECT month, revenue FROM sales") Samples.sales_frame
              Samples.session0 eq_refl eq_refl eq_refl)
    as (Hdistinct & _).
  destruct (Hdistinct Hlabels) as (views & _ & Hshown & Hmany & _).
  exists views. split; [exact Hshown |].
  destruct Hmany as (chart_df & -> & _); [cbn; lia | reflexivity].
Defined.

(** C4 does not hold for a result set in which a column label occurs
    twice.  The query of the block below gives two rows under the labels
    name, name: the statement panel and the tabs are drawn, then the table
    call raises, so that neither the table nor a chart is drawn.  With one
    row under the same labels, not even the table is drawn. *)
Lemma repeated_label_draws_no_view :
  let item := PDict [("type", PStr "sql");
                     ("statement", PStr "SELECT region AS name, product AS name FROM sales")] in
  let panel := [EvExpander "SQL Query" false;
                EvCode (PStr "SELECT region AS name, product AS name FROM sales") "sql";
                EvExpander "Results" true; EvSpinner "Running SQL..."] in
  let two_rows := {| df_index := None; df_columns := ["name"; "name"];
                     df_rows := [[PStr "north"; PStr "tea"]; [PStr "south"; PStr "rice"]] |} in
  let one_row := {| df_index := None; df_columns := ["name"; "name"];
                    df_rows := [[PStr "north"; PStr "tea"]] |} in
  let run := fun df =>
    display_item
      {| secrets := Some Samples.full_config;
         secrets_key_error := Samples.no_such_secret;
         connect := fun _ => Returned Samples.conn0;
         requests_post := fun _ => Failed "unreachable";
         read_sql_query := fun _ _ => Returned df;
         button_pressed := Samples.quiet;
         chat_input := None |}
      1 item Samples.session0 in
  (length (df_rows two_rows) > 1
   /\ outcome (run two_rows) = Raise duplicate_labels_error
   /\ shown (run two_rows) = panel ++ [EvTabs ["Data"; "Line Chart"; "Bar Chart"]])
  /\ (length (df_rows one_row) <= 1
      /\ outcome (run one_row) = Raise duplicate_labels_error
      /\ shown (run one_row) = panel).
Proof.
  intros item panel two_rows one_row run.
  split; (split; [cbn; lia | split; reflexivity]).
Qed.

(* ===================================================================== *)
(** ** The renderer: widget keys of the suggestion buttons *)
(* ===================================================================== *)

Lemma string_of_uint_no_underscore d :
  contains underscore (NilEmpty.string_of_uint d) = false.
Proof. induction d; cbn; auto. Qed.

Lemma str_of_nat_no_underscore n : contains underscore (str_of_nat n) = false.
Proof. apply string_of_uint_no_underscore. Qed.

Lemma str_of_nat_inj n m : str_of_nat n = str_of_nat m -> n = m.
Proof.
  unfold str_of_nat. intros H.
  apply Unsigned.to_uint_inj.
  assert (Hs : Some (Nat.to_uint n) = Some (Nat.to_uint m)).
  { rewrite <- (NilEmpty.usu (Nat.to_uint n)), <- (NilEmpty.usu (Nat.to_uint m)).
    rewrite H. reflexivity. }
  injection Hs as Hs. exact Hs.
Qed.

(** Two strings without the separator, each followed by the separator and
    a tail: equal wholes have equal parts. *)
Lemma split_at_separator c a a' b b' :
  contains c a = false -> contains c a' = false ->
  (a ++ String c b)%string = (a' ++ String c b')%string ->
  a = a' /\ b = b'.
Proof.
  revert a'. induction a as [| x a IH]; intros [| x' a'] Ha Ha' H; cbn in *.
  - injection H as H. auto.
  - injection H as Hc _. subst x'. rewrite Ascii.eqb_refl in Ha'. discriminate.
  - injection H as Hc _. subst x. rewrite Ascii.eqb_refl in Ha. discriminate.
  - injection H as Hx H. subst x'.
    apply orb_false_iff in Ha as [_ Ha]. apply orb_false_iff in Ha' as [_ Ha'].
    destruct (IH a' Ha Ha' H) as [-> ->]. auto.
Qed.

Lemma widget_key_inj m j m' j' :
  widget_key m j = widget_key m' j' -> m = m' /\ j = j'.
Proof.
  unfold widget_key. intros H.
  change ("_" ++ str_of_nat j)%string with (String underscore (str_of_nat j)) in H.
  change ("_" ++ str_of_nat j')%string with (String underscore (str_of_nat j')) in H.
  apply split_at_separator in H; try apply str_of_nat_no_underscore.
  destruct H as [Hm Hj]. split; apply str_of_nat_inj; assumption.
Qed.

(** The index the loop of lines 126-132 ends up using for the turn at
    position [i] of a log of [n] turns. *)
Lemma index_or_len_existing n i :
  i < n -> index_or_len (Some i) n = if Nat.eqb i 0 then n else i.
Proof. destruct i; reflexivity. Qed.


(** The answer to a prompt is drawn by [process_message] with no
    [message_index], after the user turn went into the log: the index used
    is the position the assistant turn is about to take, which no turn
    drawn by the loop before it can have used. *)
Lemma fresh_keys_distinct n len i j j' :
  i < n -> n < len ->
  widget_key (index_or_len (Some i) n) j <> widget_key (index_or_len None len) j'.
Proof.
  intros Hi Hlen Hkey.
  apply widget_key_inj in Hkey. destruct Hkey as [Hidx _].
  rewrite index_or_len_existing in Hidx by assumption. cbn in Hidx.
  destruct (Nat.eqb_spec i 0); lia.
Qed.

(* ===================================================================== *)
(** ** Start-up: the configuration and the connection *)
(* ===================================================================== *)

Lemma connect_kwargs_missing env cfg k :
  In k connection_keys -> dict_get cfg k = None ->
  exists arg, connect_kwargs env cfg = Raise (KeyError arg).
Proof.
  intros Hin Hmiss. unfold connect_kwargs, cfg_item.
  repeat
    match goal with
    | |- context [dict_get cfg ?key] =>
        destruct (dict_get cfg key) eqn:?; cbn [rbind];
          [| eexists; reflexivity]
    end.
  exfalso. cbn in Hin.
  repeat (destruct Hin as [<- | Hin]; [congruence |]). exact Hin.
Qed.

(** C5, for what the start-up code guards.  When the configuration source
    has no "snowflake" table, or when the session has no connection yet and one of the seven
    entries handed to the connector is missing, the run is halted with one
    error banner before anything else is drawn, and the session state is
    left as it was. *)
Theorem missing_connection_config_halts env ss :
  secrets env = None
  \/ (exists cfg k,
        secrets env = Some cfg /\ ss_CONN ss = None
        /\ In k connection_keys /\ dict_get cfg k = None) ->
  halted_with_error (run_page env ss) /\ snd (fst (run_page env ss)) = ss.
Proof.
  intros [Hnone | (cfg & k & Hcfg & Hconn & Hin & Hmiss)];
    unfold halted_with_error, run_page.
  - rewrite Hnone. cbn. repeat split. eexists; reflexivity.
  - rewrite Hcfg. unfold initialize_connection. rewrite Hconn.
    destruct (connect_kwargs_missing env cfg k Hin Hmiss) as (arg & ->).
    cbn. repeat split. eexists; reflexivity.
Qed.

Lemma missing_connection_config_halts_witness :
  let env := Samples.env_of (Some Samples.config_without_user)
               (Returned Samples.ok_response) Samples.quiet (Some "hi") in
  In "user" connection_keys
  /\ dict_get Samples.config_without_user "user" = None
  /\ halted_with_error (run_page env fresh_session_state).
Proof.
  intros env.
  assert (Hin : In "user" connection_keys) by (cbn; auto).
  assert (Hmiss : dict_get Samples.config_without_user "user" = None) by reflexivity.
  split; [exact Hin |]. split; [exact Hmiss |].
  apply (missing_connection_config_halts env fresh_session_state).
  right. exists Samples.config_without_user, "user".
  repeat split; try reflexivity; assumption.
Defined.

(** C5 does not hold for the entries that are read later: with every entry
    but ["stage"] in place, the run is not halted; the page is drawn, the
    prompt is processed and the run reaches its last line. *)
Lemma missing_stage_is_not_fatal :
  let env := Samples.env_of (Some Samples.config_without_stage)
               (Returned Samples.ok_response) Samples.quiet (Some "hi") in
  secrets env = Some Samples.config_without_stage
  /\ In "stage" config_keys
  /\ dict_get Samples.config_without_stage "stage" = None
  /\ ~ halted_with_error (run_page env fresh_session_state)
  /\ fst (fst (run_page env fresh_session_state)) = Ok tt
  /\ In (EvTitle "Cortex Analyst") (snd (run_page env fresh_session_state)).
Proof.
  intros env. split; [reflexivity |]. split; [cbn; tauto |]. split; [reflexivity |].
  assert (Hrun : fst (fst (run_page env fresh_session_state)) = Ok tt)
    by (vm_compute; reflexivity).
  split; [| split; [exact Hrun |]].
  - intros [Hstop _]. rewrite Hrun in Hstop. discriminate.
  - vm_compute. tauto.
Qed.

(** What a missing entry does to the dispatcher instead: the lookup raises
    inside the [try], so the reply is empty, one banner is shown and no
    request leaves. *)
Lemma send_message_missing_stage env cfg prompt s database schema :
  dict_get cfg "database" = Some database ->
  dict_get cfg "schema" = Some schema ->
  dict_get cfg "stage" = None ->
  send_message env cfg prompt s
  = (Ok (PDict []), s,
     [EvError ("Error sending message: '" ++ secrets_key_error env "stage" ++ "'")%string]).
Proof.
  intros Hdb Hsc Hst. unfold send_message, try_except, bind, config_get.
  rewrite Hdb, Hsc, Hst. reflexivity.
Qed.

(** A missing ["file"] entry is met at line 117, outside any [try]: the
    [KeyError] ends the run after the connection banner and the title. *)
Lemma missing_file_raises env ss cfg conn :
  secrets env = Some cfg -> ss_CONN ss = Some conn ->
  dict_get cfg "file" = None ->
  run_page env ss
  = (Raise (KeyError (secrets_key_error env "file")), ss, [EvTitle "Cortex Analyst"]).
Proof.
  intros Hcfg Hconn Hfile. unfold run_page, initialize_connection.
  rewrite Hcfg, Hconn, Hfile. cbn. destruct ss; cbn in *; subst; reflexivity.
Qed.

(* ===================================================================== *)
(** ** The pending-suggestion slot *)
(* ===================================================================== *)

(** A pressed button stores its label, whatever the slot held; a button
    that was not pressed leaves the slot alone. *)
Lemma display_suggestion_run env mi j suggestion s :
  display_suggestion env mi j suggestion s
  = (Ok tt,
     (if button_pressed env (widget_key mi j)
      then store_active_suggestion suggestion s else s),
     [EvButton suggestion (widget_key mi j)]).
Proof.
  unfold display_suggestion. rewrite bind_emit.
  destruct (button_pressed env (widget_key mi j)); reflexivity.
Qed.

(** Lines 139-141 when the slot holds something truthy: one call of
    [process_message] on it, and the reset once the call has returned. *)
Lemma handle_active_suggestion_truthy env cfg s :
  truthy (active_suggestion s) = true ->
  let call := process_message env cfg (active_suggestion s) s in
  handle_active_suggestion env cfg s
  = match outcome call with
    | Ok _ => (Ok tt, store_active_suggestion PNone (final call), shown call)
    | Raise e => (Raise e, final call, shown call)
    end.
Proof.
  intros Ht call. unfold handle_active_suggestion.
  rewrite bind_get_session, Ht, bind_run. fold call.
  destruct (outcome call); [| reflexivity].
  unfold prepend, set_active_suggestion, outcome, final, shown; cbn [fst snd].
  rewrite app_nil_r. reflexivity.
Qed.

(** Lines 139-141 when the slot holds something falsy: nothing at all. *)
Lemma handle_active_suggestion_falsy env cfg s :
  truthy (active_suggestion s) = false ->
  handle_active_suggestion env cfg s = (Ok tt, s, []).
Proof.
  intros Hf. unfold handle_active_suggestion.
  rewrite bind_get_session, Hf. reflexivity.
Qed.

(** The buttons of one suggestions block, in the order of the list. *)
Lemma display_suggestions_run env idx l :
  forall k s,
    outcome (for_enumerate k l (display_suggestion env idx) s) = Ok tt
    /\ shown (for_enumerate k l (display_suggestion env idx) s)
       = map (fun p => EvButton (snd p) (widget_key idx (fst p)))
           (combine (seq k (length l)) l).
Proof.
  induction l as [| v rest IH]; intros k s; cbn [for_enumerate List.length seq combine map].
  - split; reflexivity.
  - rewrite bind_run, display_suggestion_run. project. cbv iota. project.
    destruct (IH (S k)
                (if button_pressed env (widget_key idx k)
                 then store_active_suggestion v s else s)) as (Ho & Hsh).
    rewrite Ho, Hsh. split; reflexivity.
Qed.

(** Within one block the keys are pairwise distinct. *)
Lemma block_keys_distinct idx k n : NoDup (map (widget_key idx) (seq k n)).
Proof.
  apply Injective_map_NoDup; [| apply seq_NoDup].
  intros j j' H. apply widget_key_inj in H. tauto.
Qed.

Lemma truthy_nonempty S : S <> "" -> truthy (PStr S) = true.
Proof.
  intros HS. cbn. destruct (String.eqb_spec S ""); [contradiction | reflexivity].
Qed.

(** C6 does not hold for the empty text: the button labelled with the
    empty string is pressed, the run reaches its last line, and at that
    point the slot still holds the empty string, the log is what it was and
    nothing was posted. *)
Lemma empty_suggestion_not_consumed :
  let env := Samples.env_of (Some Samples.full_config) (Returned Samples.ok_response)
               (Samples.pressed_only "1_1") None in
  let run := page_body env Samples.full_config Samples.offer_session in
  In (EvButton (PStr "") "1_1") (shown run)
  /\ outcome run = Ok tt
  /\ active_suggestion (final run) = PStr ""
  /\ active_suggestion (final run) <> PNone
  /\ messages (final run) = messages Samples.offer_session
  /\ posts (shown run) = [].
Proof.
  intros env run.
  assert (Hrun : run
                 = (Ok tt, store_active_suggestion (PStr "") Samples.offer_session,
                    [EvChatMessage "user"; EvMarkdown (PStr "What is total revenue?");
                     EvChatMessage "assistant";
                     EvExpander "Request ID" false; EvMarkdown (PStr "abc-123");
                     EvExpander "Suggestions" true;
                     EvButton (PStr "Show revenue by month") "1_0";
                     EvButton (PStr "") "1_1";
                     EvChatInput "What is your question?"]))
    by (vm_compute; reflexivity).
  rewrite Hrun. unfold outcome, final, shown; cbn [fst snd].
  repeat split; try reflexivity; try discriminate.
  cbn. tauto.
Qed.

(** A session in three runs.  The question is answered with an offer; the
    press on the offer is consumed in the run it triggers, by one request
    that carries the text of the offer, and the slot is empty again when
    that run ends; the run after it sends nothing and adds nothing. *)
Lemma suggestion_scenario :
  let r1 := run_page Samples.env_ask fresh_session_state in
  let r2 := run_page Samples.env_press (snd (fst r1)) in
  let r3 := run_page Samples.env_idle (snd (fst r2)) in
  let roles := fun r : result unit * session_state * list event =>
    option_map (fun c => map turn_role (cs_messages c)) (ss_chat (snd (fst r))) in
  let slot := fun r : result unit * session_state * list event =>
    option_map cs_active_suggestion (ss_chat (snd (fst r))) in
  (roles r1 = Some ["user"; "assistant"] /\ slot r1 = Some PNone)
  /\ In (EvButton (PStr "Show revenue by month") "1_0") (snd r2)
  /\ (roles r2 = Some ["user"; "assistant"; "user"; "assistant"]
      /\ slot r2 = Some PNone
      /\ map req_json (posts (snd r2))
         = [request_body (PStr "Show revenue by month") "@DB.SC.STG/model.yaml"])
  /\ (roles r3 = roles r2 /\ slot r3 = Some PNone /\ posts (snd r3) = []).
Proof.
  intros r1 r2 r3 roles slot.
  repeat split; try (vm_compute; reflexivity).
  vm_compute. tauto.
Qed.

(** C6, for a suggestion whose text [S] is not empty:
    pressing its button stores [S] in the slot, whatever the slot held (one
    slot, no queue); with [S] in the slot, lines 139-141 are exactly one
    call of [process_message] on [S], followed, when the call returns, by
    the reset of the slot to [None]; and with [None] in the slot they do
    nothing, so the call is not repeated. *)
Theorem pending_suggestion_single_shot env cfg S s mi j :
  S <> "" ->
  (button_pressed env (widget_key mi j) = true ->
   display_suggestion env mi j (PStr S) s
   = (Ok tt, store_active_suggestion (PStr S) s, [EvButton (PStr S) (widget_key mi j)]))
  /\ (active_suggestion s = PStr S ->
      let call := process_message env cfg (PStr S) s in
      let run := handle_active_suggestion env cfg s in
      outcome run = outcome call
      /\ shown run = shown call
      /\ messages (final run) = messages (final call)
      /\ (outcome call = Ok tt ->
          final run = store_active_suggestion PNone (final call)
          /\ active_suggestion (final run) = PNone
          /\ handle_active_suggestion env cfg (final run) = (Ok tt, final run, [])))
  /\ (active_suggestion s = PNone ->
      handle_active_suggestion env cfg s = (Ok tt, s, [])).
Proof.
  intros HS. split; [| split].
  - intros Hpressed. rewrite display_suggestion_run, Hpressed. reflexivity.
  - intros Hslot call run. subst run.
    rewrite handle_active_suggestion_truthy
      by (rewrite Hslot; apply truthy_nonempty; exact HS).
    rewrite Hslot. fold call.
    destruct (outcome call) as [[] | e] eqn:Hcall;
      unfold outcome, final, shown; cbn [fst snd].
    + repeat split.
    + repeat split; discriminate.
  - intros Hslot. apply handle_active_suggestion_falsy. rewrite Hslot. reflexivity.
Qed.

Lemma pending_suggestion_single_shot_witness :
  let env := Samples.env_of (Some Samples.full_config) (Returned Samples.failed_response)
               (Samples.pressed_only "1_0") None in
  let S := "Show revenue by month" in
  let s := store_active_suggestion (PStr S) Samples.offer_session in
  S <> ""
  /\ button_pressed env (widget_key 1 0) = true
  /\ active_suggestion s = PStr S
  /\ outcome (process_message env Samples.full_config (PStr S) s) = Ok tt
  /\ active_suggestion (final (handle_active_suggestion env Samples.full_config s)) = PNone.
Proof.
  intros env S s.
  assert (HS : S <> "") by discriminate.
  assert (Hcall : outcome (process_message env Samples.full_config (PStr S) s) = Ok tt)
    by reflexivity.
  split; [exact HS |]. split; [reflexivity |]. split; [reflexivity |].
  split; [exact Hcall |].
  destruct (pending_suggestion_single_shot env Samples.full_config S s 1 0 HS)
    as (_ & Hconsume & _).
  destruct (Hconsume eq_refl) as (_ & _ & _ & Hreset).
  destruct (Hreset Hcall) as (_ & Hnone & _).
  exact Hnone.
Defined.

Lemma same_slot_refl s : same_slot s s.
Proof. reflexivity. Qed.

Lemma same_slot_trans s1 s2 s3 : same_slot s1 s2 -> same_slot s2 s3 -> same_slot s1 s3.
Proof. unfold same_slot; congruence. Qed.

Lemma stable_append_message t : stable same_slot (append_message t).
Proof. intros s; reflexivity. Qed.

Lemma stable_eq_same_slot {A : Type} (m : M A) : stable eq m -> stable same_slot m.
Proof. intros H s. rewrite <- (H s). reflexivity. Qed.

(** A run in which no button is pressed. *)
Section QuietRun.

Variable env : environment.
Variable snowflake_config : config.
Hypothesis no_button_pressed : forall key, button_pressed env key = false.

Lemma display_suggestion_same_slot mi si v :
  stable same_slot (display_suggestion env mi si v).
Proof.
  intros s. rewrite display_suggestion_run, no_button_pressed. reflexivity.
Qed.

Lemma display_content_same_slot content request_id mi :
  stable same_slot (display_content env content request_id mi).
Proof.
  unfold display_content, display_item, display_frame, st_dataframe.
  stable_walk same_slot_refl same_slot_trans ltac:(apply display_suggestion_same_slot).
Qed.

Lemma process_message_same_slot prompt :
  stable same_slot (process_message env snowflake_config prompt).
Proof.
  unfold process_message.
  stable_walk same_slot_refl same_slot_trans
    ltac:(first [ apply display_content_same_slot
                | apply stable_eq_same_slot; apply send_message_readonly
                | apply stable_append_message ]).
Qed.

Lemma display_existing_messages_same_slot :
  stable same_slot (display_existing_messages env).
Proof.
  unfold display_existing_messages.
  stable_walk same_slot_refl same_slot_trans ltac:(apply display_content_same_slot).
Qed.

Lemma process_user_input_same_slot :
  stable same_slot (process_user_input env snowflake_config).
Proof.
  unfold process_user_input.
  stable_walk same_slot_refl same_slot_trans ltac:(apply process_message_same_slot).
Qed.

(** With the empty string in the slot and no button pressed, a whole pass
    over lines 126-141 leaves the empty string in the slot. *)
Lemma page_body_keeps_empty_slot s :
  active_suggestion s = PStr "" ->
  active_suggestion (final (page_body env snowflake_config s)) = PStr "".
Proof.
  intros Hslot. unfold page_body.
  pose proof (display_existing_messages_same_slot s) as H1. unfold same_slot in H1.
  rewrite final_bind.
  set (r1 := display_existing_messages env s) in *.
  destruct (outcome r1); [| congruence].
  pose proof (process_user_input_same_slot (final r1)) as H2. unfold same_slot in H2.
  rewrite final_bind.
  set (r2 := process_user_input env snowflake_config (final r1)) in *.
  destruct (outcome r2); [| congruence].
  rewrite handle_active_suggestion_falsy.
  - unfold final at 1; cbn [fst snd]. congruence.
  - replace (active_suggestion (final r2)) with (PStr "") by congruence. reflexivity.
Qed.

End QuietRun.

(** C10.  The suggestion whose text is the empty string: pressing its
    button stores the empty string in the slot; with the empty string in
    the slot, lines 139-141 do nothing (no call of [process_message], no
    reset), because the test is on the truthiness of the slot; and the
    empty string stays in the slot through any number of further runs in
    which no button is pressed. *)
Theorem empty_suggestion_never_consumed env cfg s mi j :
  (button_pressed env (widget_key mi j) = true ->
   display_suggestion env mi j (PStr "") s
   = (Ok tt, store_active_suggestion (PStr "") s, [EvButton (PStr "") (widget_key mi j)]))
  /\ (active_suggestion s = PStr "" ->
      handle_active_suggestion env cfg s = (Ok tt, s, [])
      /\ forall envs,
           Forall (fun env' => forall key, button_pressed env' key = false) envs ->
           active_suggestion (reruns envs cfg s) = PStr "").
Proof.
  split.
  - intros Hpressed. rewrite display_suggestion_run, Hpressed. reflexivity.
  - intros Hslot. split.
    + apply handle_active_suggestion_falsy. rewrite Hslot. reflexivity.
    + intros envs Hquiet. revert s Hslot.
      induction Hquiet as [| env' rest Hq _ IH]; intros s Hslot; cbn [reruns].
      * exact Hslot.
      * apply IH. apply page_body_keeps_empty_slot; assumption.
Qed.

Lemma empty_suggestion_never_consumed_witness :
  let env := Samples.env_of (Some Samples.full_config) (Returned Samples.ok_response)
               (Samples.pressed_only "1_1") None in
  let later := Samples.env_of (Some Samples.full_config) (Returned Samples.ok_response)
                 Samples.quiet (Some "And by region?") in
  let s := final (page_body env Samples.full_config Samples.offer_session) in
  button_pressed env (widget_key 1 1) = true
  /\ active_suggestion s = PStr ""
  /\ handle_active_suggestion env Samples.full_config s = (Ok tt, s, [])
  /\ active_suggestion (reruns [later; later] Samples.full_config s) = PStr "".
Proof.
  intros env later s.
  assert (Hslot : active_suggestion s = PStr "") by reflexivity.
  split; [reflexivity |]. split; [exact Hslot |].
  destruct (empty_suggestion_never_consumed env Samples.full_config s 1 1)
    as (_ & Hstay).
  destruct (Hstay Hslot) as (Hnoop & Hforever).
  split; [exact Hnoop |].
  apply Hforever. repeat constructor.
Defined.

(* ===================================================================== *)
(** ** Drawing the transcript again *)
(* ===================================================================== *)

Lemma uniform_ret {A : Type} (a : A) : uniform (ret a).
Proof. intros s s' H; repeat split; exact H. Qed.

Lemma uniform_raise {A : Type} (e : exn) : uniform (@raise A e).
Proof. intros s s' H; repeat split; exact H. Qed.

Lemma uniform_lift {A : Type} (r : result A) : uniform (lift r).
Proof. destruct r; [apply uniform_ret | apply uniform_raise]. Qed.

Lemma uniform_emit (e : event) : uniform (emit e).
Proof. intros s s' H; repeat split; exact H. Qed.

Lemma uniform_set_active_suggestion v : uniform (set_active_suggestion v).
Proof. intros s s' H; repeat split; exact H. Qed.

Lemma uniform_bind {A B : Type} (m : M A) (f : A -> M B) :
  uniform m -> (forall a, uniform (f a)) -> uniform (bind m f).
Proof.
  intros Hm Hf s s' H. rewrite !bind_run.
  destruct (Hm s s' H) as (Ho & Hs & Hc). rewrite <- Ho, <- Hs.
  destruct (outcome (m s)) as [a | e].
  - destruct (Hf a _ _ Hc) as (Ho' & Hs' & Hc').
    unfold prepend, outcome, final, shown in *; cbn [fst snd].
    rewrite Ho', Hs'. repeat split. exact Hc'.
  - unfold outcome, final, shown; cbn [fst snd]. repeat split. exact Hc.
Qed.

(** Reading the session is harmless when only the connection is used. *)
Lemma uniform_get_session {A : Type} (k : session -> M A) :
  (forall s s', same_conn s s' -> k s = k s') ->
  (forall s, uniform (k s)) ->
  uniform (bind get_session k).
Proof.
  intros Hk Hu s s' H. rewrite !bind_get_session.
  rewrite (Hk s s' H). apply Hu. exact H.
Qed.

Lemma uniform_if {A : Type} (b : bool) (m1 m2 : M A) :
  uniform m1 -> uniform m2 -> uniform (if b then m1 else m2).
Proof. destruct b; auto. Qed.

Lemma uniform_for_each {A : Type} (xs : list A) (body : A -> M unit) :
  (forall x, uniform (body x)) -> uniform (for_each xs body).
Proof.
  intros Hb. induction xs as [| x rest IH]; cbn [for_each].
  - apply uniform_ret.
  - apply uniform_bind; [apply Hb | intros _; exact IH].
Qed.

Lemma uniform_for_enumerate {A : Type} (xs : list A) (body : nat -> A -> M unit) :
  (forall i x, uniform (body i x)) -> forall i, uniform (for_enumerate i xs body).
Proof.
  intros Hb. induction xs as [| x rest IH]; intros i; cbn [for_enumerate].
  - apply uniform_ret.
  - apply uniform_bind; [apply Hb | intros _; apply IH].
Qed.

Ltac uniform_walk leaf :=
  repeat
    first
      [ leaf
      | lazymatch goal with
        | |- forall _, _ => intro
        | |- uniform (ret _) => apply uniform_ret
        | |- uniform (raise _) => apply uniform_raise
        | |- uniform (lift _) => apply uniform_lift
        | |- uniform (emit _) => apply uniform_emit
        | |- uniform (set_active_suggestion _) => apply uniform_set_active_suggestion
        | |- uniform (bind get_session _) =>
            apply uniform_get_session;
              [ let s := fresh "s" in
                let s' := fresh "s'" in
                let H := fresh "H" in
                intros s s' H; unfold same_conn in H; rewrite H; reflexivity
              | ]
        | |- uniform (bind _ _) => apply uniform_bind
        | |- uniform (for_each _ _) => apply uniform_for_each
        | |- uniform (for_enumerate _ _ _) => apply uniform_for_enumerate
        | |- uniform (if _ then _ else _) => apply uniform_if
        end ].

Lemma display_item_uniform env idx item : uniform (display_item env idx item).
Proof.
  unfold display_item, display_suggestion, display_frame, st_dataframe.
  uniform_walk fail.
Qed.

(** What [display_content] shows, and whether it returns, is decided by
    its arguments, the connection and the index it settles on. *)
Lemma display_content_same_view env content request_id mi mi' s s' :
  CONN s = CONN s' ->
  index_or_len mi (length (messages s)) = index_or_len mi' (length (messages s')) ->
  outcome (display_content env content request_id mi s)
  = outcome (display_content env content request_id mi' s')
  /\ shown (display_content env content request_id mi s)
     = shown (display_content env content request_id mi' s').
Proof.
  intros Hconn Hidx. unfold display_content.
  rewrite !bind_get_session. rewrite Hidx.
  match goal with
  | |- outcome (?m s) = _ /\ _ =>
      assert (Hu : uniform m)
        by (uniform_walk ltac:(apply display_item_uniform))
  end.
  destruct (Hu s s' Hconn) as (Ho & Hs & _). split; assumption.
Qed.

(** One pass of the loop, started in a session [sk] that has the log and
    the connection of [s]. *)
Lemma rerender_body_run env s sk i t :
  frame s sk ->
  outcome (rerender_body env i t sk)
  = outcome (display_content env (turn_content t) (turn_get_request_id t) (Some i) s)
  /\ shown (rerender_body env i t sk) = render_turn env s i t
  /\ frame s (final (rerender_body env i t sk)).
Proof.
  intros (Hc & Hm & Hs). unfold rerender_body, render_turn. rewrite bind_emit.
  destruct (display_content_same_view env (turn_content t) (turn_get_request_id t)
              (Some i) (Some i) sk s Hc) as (Ho & Hsh); [rewrite Hm; reflexivity |].
  unfold prepend, outcome, final, shown in *; cbn [fst snd].
  rewrite Ho, Hsh. split; [reflexivity |]. split; [reflexivity |].
  apply (frame_trans s sk); [repeat split; assumption |].
  apply (display_content_frame env (turn_content t) (turn_get_request_id t) (Some i) sk).
Qed.

(** The loop over turns that are all drawn without an exception. *)
Lemma rerender_loop_complete env s l :
  forall k sk,
    frame s sk ->
    (forall j u, nth_error l j = Some u -> turn_displays env s (k + j) u) ->
    outcome (for_enumerate k l (rerender_body env) sk) = Ok tt
    /\ shown (for_enumerate k l (rerender_body env) sk) = render_turns env s k l
    /\ frame s (final (for_enumerate k l (rerender_body env) sk)).
Proof.
  induction l as [| t rest IH]; intros k sk Hframe Hall; cbn [for_enumerate render_turns].
  - repeat split; apply Hframe.
  - rewrite bind_run.
    destruct (rerender_body_run env s sk k t Hframe) as (Ho & Hsh & Hfr).
    rewrite Ho, Hsh.
    pose proof (Hall 0 t eq_refl) as H0. unfold turn_displays in H0.
    rewrite Nat.add_0_r in H0. rewrite H0.
    destruct (IH (S k) (final (rerender_body env k t sk)) Hfr) as (Ho' & Hsh' & Hfr').
    { intros j u Hj. replace (S k + j) with (k + S j) by lia. apply Hall. exact Hj. }
    project. rewrite Ho', Hsh'. split; [reflexivity |]. split; [reflexivity |].
    exact Hfr'.
Qed.

(** The loop up to and including a given turn. *)
Lemma rerender_loop_upto env s before t after :
  forall k sk,
    frame s sk ->
    (forall j u, nth_error before j = Some u -> turn_displays env s (k + j) u) ->
    exists rest,
      shown (for_enumerate k (before ++ t :: after) (rerender_body env) sk)
      = render_turns env s k before ++ render_turn env s (k + length before) t ++ rest.
Proof.
  induction before as [| b before IH]; intros k sk Hframe Hall;
    cbn [List.app for_enumerate render_turns List.length].
  - rewrite bind_run, Nat.add_0_r.
    destruct (rerender_body_run env s sk k t Hframe) as (_ & Hsh & _). rewrite Hsh.
    destruct (outcome (rerender_body env k t sk)); project.
    + eexists. reflexivity.
    + exists []. rewrite app_nil_r. reflexivity.
  - rewrite bind_run.
    destruct (rerender_body_run env s sk k b Hframe) as (Ho & Hsh & Hfr).
    rewrite Ho, Hsh.
    pose proof (Hall 0 b eq_refl) as H0. unfold turn_displays in H0.
    rewrite Nat.add_0_r in H0. rewrite H0.
    destruct (IH (S k) (final (rerender_body env k b sk)) Hfr) as (rest & Hrest).
    { intros j u Hj. replace (S k + j) with (k + S j) by lia. apply Hall. exact Hj. }
    exists rest. project.
    rewrite Hrest, <- app_assoc.
    replace (k + S (length before)) with (S k + length before) by lia.
    reflexivity.
Qed.

Lemma display_existing_messages_unfold env s :
  display_existing_messages env s
  = for_enumerate 0 (messages s) (rerender_body env) s.
Proof. unfold display_existing_messages. rewrite bind_get_session. reflexivity. Qed.

(** The loop over the blocks of one turn, when none of them raises. *)
Lemma display_items_in_order env idx s items :
  forall sk,
    same_conn s sk ->
    outcome (for_each items (display_item env idx) sk) = Ok tt ->
    shown (for_each items (display_item env idx) sk)
    = flat_map (fun item => shown (display_item env idx item s)) items.
Proof.
  induction items as [| item rest IH]; intros sk Hconn Hok;
    cbn [for_each flat_map] in *.
  - reflexivity.
  - rewrite bind_run in Hok |- *.
    destruct (display_item_uniform env idx item s sk Hconn) as (Ho & Hsh & Hc).
    destruct (outcome (display_item env idx item sk)) as [[] | e] eqn:Hitem.
    + rewrite outcome_prepend in Hok. project.
      assert (Hc' : same_conn s (final (display_item env idx item sk))).
      { unfold same_conn in *.
        destruct (display_item_frame env idx item sk) as (Hk & _).
        rewrite Hk. exact Hconn. }
      rewrite (IH _ Hc' Hok), Hsh. reflexivity.
    + rewrite outcome_triple in Hok. discriminate.
Qed.

(** A list of blocks that is drawn without an exception is drawn block by
    block, in the order of the list, after the panel. *)
Lemma display_content_in_order env blocks request_id mi s :
  outcome (display_content env (PList blocks) request_id mi s) = Ok tt ->
  shown (display_content env (PList blocks) request_id mi s)
  = request_id_panel request_id
    ++ flat_map
         (fun item =>
            shown (display_item env (index_or_len mi (length (messages s))) item s))
         blocks.
Proof.
  unfold display_content, request_id_panel. rewrite bind_get_session.
  destruct (truthy request_id).
  - rewrite bind_run, bind_emit, emit_run. project. cbv iota.
    cbn [lift py_iter]. rewrite bind_ret_l. project.
    intros Hok. rewrite (display_items_in_order env _ s blocks s eq_refl Hok).
    reflexivity.
  - rewrite bind_ret_l. cbn [lift py_iter]. rewrite bind_ret_l.
    intros Hok. rewrite (display_items_in_order env _ s blocks s eq_refl Hok).
    reflexivity.
Qed.

(** What was shown for the answer when [process_message] returned. *)
Lemma process_message_ok env cfg prompt s :
  outcome (process_message env cfg prompt s) = Ok tt ->
  exists content request_id sent,
    let s0 := push_message (user_turn prompt) s in
    outcome (display_content env content request_id None s0) = Ok tt
    /\ messages (final (process_message env cfg prompt s))
       = messages s ++ [user_turn prompt; assistant_turn content request_id]
    /\ CONN (final (process_message env cfg prompt s)) = CONN s
    /\ shown (process_message env cfg prompt s)
       = prompt_events prompt ++ sent
         ++ shown (display_content env content request_id None s0).
Proof.
  intros Hok.
  destruct (process_message_run env cfg prompt s) as (kv & sent & _ & Hrun).
  cbv zeta in Hrun. rewrite Hrun in Hok |- *. clear Hrun.
  set (s0 := push_message (user_turn prompt) s) in *.
  destruct (py_get (get_or kv "message" (PDict [])) "content" (PList []))
    as [content | e]; [| rewrite outcome_triple in Hok; discriminate].
  exists content, (get_or kv "request_id" PNone), sent. cbv zeta.
  pose proof (display_content_frame env content (get_or kv "request_id" PNone) None s0)
    as (Hc & Hm & _).
  destruct (outcome (display_content env content (get_or kv "request_id" PNone) None s0))
    as [[] | e]; [| rewrite outcome_triple in Hok; discriminate].
  project. cbn [push_message messages CONN]. rewrite Hc, Hm.
  cbn [s0 push_message messages CONN]. rewrite <- app_assoc.
  repeat split.
Qed.

(** C8.  Append, then draw again.
    (1) When no turn raises, drawing a log again shows its turns one after
    the other in log order, each from the content and the request id the
    log holds for it, and leaves the log as it is.
    (2) In any case every turn that is reached is drawn, at its position,
    from the content and the request id the log holds for it, after the
    turns before it.
    (3) The blocks of a turn are drawn one after the other in the order of
    its content list, after the request id panel.
    (4) The two turns [process_message] appended are drawn again as they
    were drawn when they were appended, the libraries answering as they
    did then: the prompt for the user turn, and for the assistant turn the
    very events (request id panel, blocks, widget keys) that the call
    showed for the answer. *)
Theorem transcript_round_trip env cfg :
  (forall s,
     (forall j u, nth_error (messages s) j = Some u -> turn_displays env s j u) ->
     outcome (display_existing_messages env s) = Ok tt
     /\ shown (display_existing_messages env s) = render_turns env s 0 (messages s)
     /\ messages (final (display_existing_messages env s)) = messages s)
  /\ (forall s before t after,
     messages s = before ++ t :: after ->
     (forall j u, nth_error before j = Some u -> turn_displays env s j u) ->
     exists rest,
       shown (display_existing_messages env s)
       = render_turns env s 0 before
         ++ (EvChatMessage (turn_role t)
             :: shown (display_content env (turn_content t) (turn_get_request_id t)
                         (Some (length before)) s))
         ++ rest)
  /\ (forall blocks request_id mi s,
        outcome (display_content env (PList blocks) request_id mi s) = Ok tt ->
        shown (display_content env (PList blocks) request_id mi s)
        = request_id_panel request_id
          ++ flat_map
               (fun item =>
                  shown (display_item env (index_or_len mi (length (messages s))) item s))
               blocks)
  /\ (forall p s,
        outcome (process_message env cfg (PStr p) s) = Ok tt ->
        exists content request_id sent answer,
          shown (process_message env cfg (PStr p) s)
          = prompt_events (PStr p) ++ sent ++ answer
          /\ messages (final (process_message env cfg (PStr p) s))
             = messages s ++ [user_turn (PStr p); assistant_turn content request_id]
          /\ forall s',
               CONN s' = CONN s ->
               messages s'
               = messages s ++ [user_turn (PStr p); assistant_turn content request_id] ->
               render_turn env s' (length (messages s)) (user_turn (PStr p))
               = [EvChatMessage "user"; EvMarkdown (PStr p)]
               /\ turn_displays env s' (length (messages s) + 1)
                    (assistant_turn content request_id)
               /\ render_turn env s' (length (messages s) + 1)
                    (assistant_turn content request_id)
                  = EvChatMessage "assistant" :: answer).
Proof.
  split; [| split; [| split]].
  - intros s Hall. rewrite display_existing_messages_unfold.
    destruct (rerender_loop_complete env s (messages s) 0 s (frame_refl s) Hall)
      as (Ho & Hsh & _ & Hm & _).
    split; [exact Ho |]. split; [exact Hsh | exact Hm].
  - intros s before t after Hlog Hall.
    rewrite display_existing_messages_unfold, Hlog.
    destruct (rerender_loop_upto env s before t after 0 s (frame_refl s) Hall)
      as (rest & Hrest).
    exists rest. exact Hrest.
  - apply display_content_in_order.
  - intros p s Hok.
    destruct (process_message_ok env cfg (PStr p) s Hok)
      as (content & request_id & sent & Hdisp & Hlog & Hconn & Hshown).
    cbv zeta in *.
    exists content, request_id, sent,
      (shown (display_content env content request_id None
                (push_message (user_turn (PStr p)) s))).
    split; [exact Hshown |]. split; [exact Hlog |].
    intros s' Hc' Hm'.
    assert (Hview :
      outcome (display_content env content request_id (Some (length (messages s) + 1)) s')
      = outcome (display_content env content request_id None
                   (push_message (user_turn (PStr p)) s))
      /\ shown (display_content env content request_id (Some (length (messages s) + 1)) s')
         = shown (display_content env content request_id None
                    (push_message (user_turn (PStr p)) s))).
    { apply display_content_same_view; [exact Hc' |].
      rewrite Nat.add_1_r. cbn [index_or_len push_message messages].
      rewrite length_app. cbn. lia. }
    destruct Hview as (Ho & Hsh).
    split; [| split].
    + unfold render_turn, user_turn, display_content; cbn [turn_role turn_content
        turn_get_request_id turn_request_id].
      rewrite bind_get_session. cbn [truthy]. rewrite bind_ret_l.
      cbn [lift py_iter]. rewrite bind_ret_l. cbn [for_each].
      unfold display_item. cbn [py_getitem dict_get String.eqb Ascii.eqb Bool.eqb lift].
      reflexivity.
    + unfold turn_displays; cbn [assistant_turn turn_content turn_get_request_id
        turn_request_id]. rewrite Ho. exact Hdisp.
    + unfold render_turn; cbn [assistant_turn turn_role turn_content turn_get_request_id
        turn_request_id]. rewrite Hsh. reflexivity.
Qed.

Lemma transcript_round_trip_witness :
  let env := Samples.env_of (Some Samples.full_config) (Returned Samples.ok_response)
               Samples.quiet None in
  let run := process_message env Samples.full_config (PStr "What is total revenue?")
               Samples.session0 in
  outcome run = Ok tt
  /\ exists content request_id sent answer,
       shown run = prompt_events (PStr "What is total revenue?") ++ sent ++ answer
       /\ render_turn env (final run) 1 (assistant_turn content request_id)
          = EvChatMessage "assistant" :: answer.
Proof.
  intros env run.
  assert (Hok : outcome run = Ok tt) by reflexivity.
  split; [exact Hok |].
  destruct (transcript_round_trip env Samples.full_config) as (_ & _ & _ & Hagain).
  destruct (Hagain "What is total revenue?" Samples.session0 Hok)
    as (content & request_id & sent & answer & Hshown & Hlog & Hnext).
  exists content, request_id, sent, answer.
  split; [exact Hshown |].
  destruct (Hnext (final run) eq_refl Hlog) as (_ & _ & Hrender).
  exact Hrender.
Defined.

(* ===================================================================== *)
(** ** Further properties: the dispatcher *)
(* ===================================================================== *)

Lemma posts_app t1 t2 : posts (t1 ++ t2) = posts t1 ++ posts t2.
Proof.
  induction t1 as [| e t1 IH]; [reflexivity |].
  destruct e; cbn; rewrite ?IH; reflexivity.
Qed.

Lemma banners_app t1 t2 : banners (t1 ++ t2) = banners t1 ++ banners t2.
Proof.
  induction t1 as [| e t1 IH]; [reflexivity |].
  destruct e; cbn; rewrite ?IH; reflexivity.
Qed.

(** The two ways [send_message] ends, whatever the configuration: with a
    reply that is not empty and no banner, or with the empty reply and one
    banner. *)
Lemma send_message_cases env cfg prompt s :
  exists kv t,
    send_message env cfg prompt s = (Ok (PDict kv), s, t)
    /\ length (posts t) <= 1
    /\ ((kv <> [] /\ banners t = []) \/ (kv = [] /\ exists msg, banners t = [msg])).
Proof.
  unfold send_message, try_except, bind, config_get.
  repeat
    match goal with
    | |- context [dict_get cfg ?k] =>
        destruct (dict_get cfg k); cbn -[String.append request_body Z.ltb]
    end;
    try (do 2 eexists; split; [reflexivity | split; [cbn; lia |]];
         right; split; [reflexivity | eexists; reflexivity]).
  match goal with
  | |- context [requests_post env ?r] =>
      destruct (requests_post env r) as [resp | msg];
        cbn -[String.append request_body Z.ltb]
  end;
    [| do 2 eexists; split; [reflexivity | split; [cbn; lia |]];
       right; split; [reflexivity | eexists; reflexivity]].
  destruct (Z.ltb (status_code resp) 400); cbn -[String.append request_body];
    [| do 2 eexists; split; [reflexivity | split; [cbn; lia |]];
       right; split; [reflexivity | eexists; reflexivity]].
  destruct (resp_json resp) as [parsed | msg]; cbn -[String.append request_body];
    [| do 2 eexists; split; [reflexivity | split; [cbn; lia |]];
       right; split; [reflexivity | eexists; reflexivity]].
  destruct parsed; cbn -[String.append request_body];
    do 2 eexists; (split; [reflexivity | split; [cbn; lia |]]);
    try (right; split; [reflexivity | eexists; reflexivity]).
  left. split; [apply dict_set_not_empty | reflexivity].
Qed.

(** X1.  No failure of the dispatcher is silent, and no success is noisy:
    whatever the configuration and whatever the libraries do, a call of
    [send_message] that returns the empty dict has shown exactly one error
    banner, and a call that returns anything else has shown none. *)
Theorem send_message_banner env cfg prompt s :
  let run := send_message env cfg prompt s in
  (outcome run = Ok (PDict []) -> exists msg, banners (shown run) = [msg])
  /\ (outcome run <> Ok (PDict []) -> banners (shown run) = []).
Proof.
  intros run.
  destruct (send_message_cases env cfg prompt s) as (kv & t & Hrun & _ & Hcases).
  subst run. rewrite Hrun. project. split.
  - intros Hempty. injection Hempty as ->.
    destruct Hcases as [(Hne & _) | (_ & Hmsg)]; [contradiction | exact Hmsg].
  - intros Hfull.
    destruct Hcases as [(_ & Hnone) | (-> & _)]; [exact Hnone | contradiction].
Qed.

Lemma send_message_banner_witness :
  let env := Samples.env_of (Some Samples.full_config) (Returned Samples.failed_response)
               Samples.quiet None in
  let run := send_message env Samples.full_config (PStr "hi") Samples.session0 in
  outcome run = Ok (PDict [])
  /\ exists msg, banners (shown run) = [msg].
Proof.
  intros env run.
  assert (Hempty : outcome run = Ok (PDict [])) by reflexivity.
  split; [exact Hempty |].
  destruct (send_message_banner env Samples.full_config (PStr "hi") Samples.session0)
    as (Hone & _).
  exact (Hone Hempty).
Defined.

(** X2.  When one of the five entries [send_message] reads is missing from
    the configuration, nothing is posted: the reply is the empty dict, the
    session is untouched, and the one event shown is the banner that quotes
    the [KeyError] which the secrets mapping raised for the first missing
    entry in the order database, schema, stage, file, host. *)
Theorem send_message_missing_entry env cfg prompt s k :
  In k dispatcher_keys -> dict_get cfg k = None ->
  exists before k' after,
    dispatcher_keys = before ++ k' :: after
    /\ dict_get cfg k' = None
    /\ Forall (fun x => dict_get cfg x <> None) before
    /\ send_message env cfg prompt s
       = (Ok (PDict []), s,
          [EvError ("Error sending message: '" ++ secrets_key_error env k' ++ "'")%string])
    /\ posts (shown (send_message env cfg prompt s)) = [].
Proof.
  intros Hin Hmiss.
  destruct (first_missing_key cfg dispatcher_keys k Hin Hmiss)
    as (before & k' & after & Hkeys & Hk' & Hall).
  exists before, k', after.
  pose proof (send_message_stops_at cfg before k' after Hkeys Hk' Hall env prompt s)
    as Hrun.
  repeat split; try assumption.
  rewrite Hrun. reflexivity.
Qed.

Lemma send_message_missing_entry_witness :
  let env := Samples.env_of (Some Samples.config_without_stage)
               (Returned Samples.ok_response) Samples.quiet None in
  In "stage" dispatcher_keys
  /\ dict_get Samples.config_without_stage "stage" = None
  /\ posts (shown (send_message env Samples.config_without_stage (PStr "hi")
                     Samples.session0)) = []
  /\ banners (shown (send_message env Samples.config_without_stage (PStr "hi")
                       Samples.session0))
     = [("Error sending message: '" ++ secrets_key_error env "stage" ++ "'")%string].
Proof.
  intros env.
  assert (Hin : In "stage" dispatcher_keys) by (cbn; tauto).
  assert (Hmiss : dict_get Samples.config_without_stage "stage" = None) by reflexivity.
  split; [exact Hin |]. split; [exact Hmiss |].
  destruct (send_message_missing_entry env Samples.config_without_stage (PStr "hi")
              Samples.session0 "stage" Hin Hmiss)
    as (before & k' & after & _ & _ & _ & _ & Hposts).
  split; [exact Hposts | reflexivity].
Defined.

(** A call that has posted had its five entries. *)
Lemma posted_with_entries env cfg prompt s req :
  posts (shown (send_message env cfg prompt s)) = [req] ->
  exists database schema stage file host,
    dict_get cfg "database" = Some database
    /\ dict_get cfg "schema" = Some schema
    /\ dict_get cfg "stage" = Some stage
    /\ dict_get cfg "file" = Some file
    /\ dict_get cfg "host" = Some host.
Proof.
  intros Hposted.
  assert (Hall : forall k, In k dispatcher_keys -> dict_get cfg k <> None).
  { intros k Hin Hmiss.
    destruct (first_missing_key cfg dispatcher_keys k Hin Hmiss)
      as (before & k' & after & Hkeys & Hk' & Hbefore).
    rewrite (send_message_stops_at cfg before k' after Hkeys Hk' Hbefore) in Hposted.
    discriminate. }
  destruct (dict_get cfg "database") as [database |] eqn:E0;
    [| exfalso; apply (Hall "database"); [cbn; tauto | exact E0]].
  destruct (dict_get cfg "schema") as [schema |] eqn:E1;
    [| exfalso; apply (Hall "schema"); [cbn; tauto | exact E1]].
  destruct (dict_get cfg "stage") as [stage |] eqn:E2;
    [| exfalso; apply (Hall "stage"); [cbn; tauto | exact E2]].
  destruct (dict_get cfg "file") as [file |] eqn:E3;
    [| exfalso; apply (Hall "file"); [cbn; tauto | exact E3]].
  destruct (dict_get cfg "host") as [host |] eqn:E4;
    [| exfalso; apply (Hall "host"); [cbn; tauto | exact E4]].
  exists database, schema, stage, file, host. repeat split.
Qed.

Lemma posts_of_banners msgs : posts (map EvError msgs) = [].
Proof. induction msgs; cbn; auto. Qed.

(** The reply to a request that was posted and answered with a JSON object
    under a status below 400. *)
Lemma send_message_merged env cfg prompt s req resp kv :
  posts (shown (send_message env cfg prompt s)) = [req] ->
  requests_post env req = Returned resp ->
  (status_code resp < 400)%Z ->
  resp_json resp = Returned (PDict kv) ->
  outcome (send_message env cfg prompt s)
  = Ok (PDict (dict_set kv "request_id" (opt_str (header_request_id resp)))).
Proof.
  intros Hposted Hresp Hstatus Hjson.
  destruct (posted_with_entries env cfg prompt s req Hposted)
    as (database & schema & stage & file & host & Hdb & Hsc & Hst & Hf & Hh).
  destruct (send_message_run env cfg prompt s _ _ _ _ _ Hdb Hsc Hst Hf Hh)
    as (msgs & Hrun & _ & _).
  match type of Hrun with
  | _ = (_, _, EvPost ?r :: _) => remember r as req0 eqn:Hreq0
  end.
  rewrite Hrun in Hposted |- *. project. rewrite shown_triple in Hposted.
  cbn [posts] in Hposted. rewrite posts_of_banners in Hposted.
  injection Hposted as Hreq. subst req.
  unfold reply_of_exchange, exchange_succeeded.
  apply Z.ltb_lt in Hstatus. rewrite Hresp, Hstatus, Hjson. reflexivity.
Qed.

(** X3.  The reply to a successful exchange is the JSON object of the
    response with one field changed: ["request_id"] holds the value of the
    X-Snowflake-Request-Id header ([None] when the header is absent), also
    when the object had a ["request_id"] of its own; every other field is
    the one of the object. *)
Theorem reply_keeps_fields env cfg prompt s req resp kv :
  posts (shown (send_message env cfg prompt s)) = [req] ->
  requests_post env req = Returned resp ->
  (status_code resp < 400)%Z ->
  resp_json resp = Returned (PDict kv) ->
  exists fields,
    outcome (send_message env cfg prompt s) = Ok (PDict fields)
    /\ dict_get fields "request_id" = Some (opt_str (header_request_id resp))
    /\ (forall k, k <> "request_id" -> dict_get fields k = dict_get kv k)
    /\ length fields
       = match dict_get kv "request_id" with
         | Some _ => length kv
         | None => S (length kv)
         end.
Proof.
  intros Hposted Hresp Hstatus Hjson.
  exists (dict_set kv "request_id" (opt_str (header_request_id resp))).
  split; [apply (send_message_merged env cfg prompt s req resp kv); assumption |].
  split; [apply dict_get_set_same |].
  split; [intros k Hk; apply dict_get_set_other; exact Hk |].
  clear. induction kv as [| [k v] kv IH]; [reflexivity |].
  cbn [dict_set dict_get]. destruct (String.eqb k "request_id"); [reflexivity |].
  cbn [List.length]. rewrite IH. destruct (dict_get kv "request_id"); reflexivity.
Qed.

Lemma reply_keeps_fields_witness :
  let env := Samples.env_of (Some Samples.full_config) (Returned Samples.ok_response)
               Samples.quiet None in
  let run := send_message env Samples.full_config (PStr "hi") Samples.session0 in
  exists req,
    posts (shown run) = [req]
    /\ requests_post env req = Returned Samples.ok_response
    /\ exists fields,
         outcome run = Ok (PDict fields)
         /\ dict_get fields "request_id" = Some (PStr "abc-123")
         /\ dict_get fields "message" = dict_get
              [("message",
                PDict [("content",
                        PList [PDict [("type", PStr "text");
                                      ("text", PStr "Revenue is $5M")]])])]
              "message".
Proof.
  intros env run.
  eexists. split; [reflexivity |]. split; [reflexivity |].
  destruct (reply_keeps_fields env Samples.full_config (PStr "hi") Samples.session0
              _ Samples.ok_response
              [("message",
                PDict [("content",
                        PList [PDict [("type", PStr "text");
                                      ("text", PStr "Revenue is $5M")]])])]
              eq_refl eq_refl eq_refl eq_refl)
    as (fields & Hout & Hid & Hother & _).
  exists fields. split; [exact Hout |]. split; [exact Hid |].
  apply Hother. discriminate.
Defined.

(* ===================================================================== *)
(** ** Further properties: what a computation shows *)
(* ===================================================================== *)

(** Every combinator of the monad shows only what its parts show. *)
Section ShowsOnly.

Variable P : event -> Prop.

Lemma shows_ret {A : Type} (a : A) : shows_only P (ret a).
Proof. intros s; constructor. Qed.

Lemma shows_raise {A : Type} (e : exn) : shows_only P (@raise A e).
Proof. intros s; constructor. Qed.

Lemma shows_lift {A : Type} (r : result A) : shows_only P (lift r).
Proof. destruct r; intros s; constructor. Qed.

Lemma shows_get_session : shows_only P get_session.
Proof. intros s; constructor. Qed.

Lemma shows_set_active_suggestion v : shows_only P (set_active_suggestion v).
Proof. intros s; constructor. Qed.

Lemma shows_append_message t : shows_only P (append_message t).
Proof. intros s; constructor. Qed.

Lemma shows_emit (e : event) : P e -> shows_only P (emit e).
Proof. intros He s; repeat constructor; exact He. Qed.

Lemma shows_bind {A B : Type} (m : M A) (f : A -> M B) :
  shows_only P m -> (forall a, shows_only P (f a)) -> shows_only P (bind m f).
Proof.
  intros Hm Hf s. rewrite bind_run. specialize (Hm s).
  destruct (outcome (m s)) as [a | e]; project; [| exact Hm].
  apply Forall_app. split; [exact Hm | apply Hf].
Qed.

Lemma shows_try_except {A : Type} (body : M A) (handler : exn -> M A) :
  shows_only P body -> (forall e, shows_only P (handler e)) ->
  shows_only P (try_except body handler).
Proof.
  intros Hb Hh s. specialize (Hb s). unfold try_except, shown in *.
  destruct (body s) as [[[a | e] s1] t1]; cbn [snd] in *; [exact Hb |].
  destruct (is_Exception e); cbn [snd]; [| exact Hb].
  specialize (Hh e s1). unfold shown in Hh.
  destruct (handler e s1) as [[r s2] t2]; cbn [snd] in *.
  apply Forall_app. split; assumption.
Qed.

Lemma shows_for_each {A : Type} (xs : list A) (body : A -> M unit) :
  (forall x, shows_only P (body x)) -> shows_only P (for_each xs body).
Proof.
  intros Hb. induction xs as [| x rest IH]; cbn [for_each].
  - apply shows_ret.
  - apply shows_bind; [apply Hb | intros _; exact IH].
Qed.

Lemma shows_for_enumerate {A : Type} (xs : list A) (body : nat -> A -> M unit) :
  (forall i x, shows_only P (body i x)) ->
  forall i, shows_only P (for_enumerate i xs body).
Proof.
  intros Hb. induction xs as [| x rest IH]; intros i; cbn [for_enumerate].
  - apply shows_ret.
  - apply shows_bind; [apply Hb | intros _; apply IH].
Qed.

Lemma shows_if {A : Type} (b : bool) (m1 m2 : M A) :
  shows_only P m1 -> shows_only P m2 -> shows_only P (if b then m1 else m2).
Proof. destruct b; auto. Qed.

End ShowsOnly.

Ltac shows_walk leaf :=
  repeat
    first
      [ leaf
      | lazymatch goal with
        | |- forall _, _ => intro
        | |- shows_only _ (ret _) => apply shows_ret
        | |- shows_only _ (raise _) => apply shows_raise
        | |- shows_only _ (lift _) => apply shows_lift
        | |- shows_only _ get_session => apply shows_get_session
        | |- shows_only _ (set_active_suggestion _) => apply shows_set_active_suggestion
        | |- shows_only _ (append_message _) => apply shows_append_message
        | |- shows_only _ (emit _) => apply shows_emit
        | |- shows_only _ (bind _ _) => apply shows_bind
        | |- shows_only _ (try_except _ _) => apply shows_try_except
        | |- shows_only _ (for_each _ _) => apply shows_for_each
        | |- shows_only _ (for_enumerate _ _ _) => apply shows_for_enumerate
        | |- shows_only _ (if _ then _ else _) => apply shows_if
        | |- shows_only _ (match ?x with _ => _ end) => destruct x
        | |- not_a_post _ => exact I
        end ].

Lemma posts_silent t : Forall not_a_post t -> posts t = [].
Proof.
  induction 1 as [| e t He _ IH]; [reflexivity |].
  destruct e; cbn in *; try exact IH. contradiction.
Qed.

(** The renderer sends nothing. *)
Lemma display_content_silent env content request_id mi :
  shows_only not_a_post (display_content env content request_id mi).
Proof.
  unfold display_content, display_item, display_suggestion, display_frame, st_dataframe.
  shows_walk fail.
Qed.

Lemma display_existing_messages_silent env :
  shows_only not_a_post (display_existing_messages env).
Proof.
  unfold display_existing_messages.
  shows_walk ltac:(apply display_content_silent).
Qed.

(** What one call of [process_message] posts is what its one call of
    [send_message] posts. *)
Lemma process_message_posts env cfg prompt s :
  posts (shown (process_message env cfg prompt s))
  = posts (shown (send_message env cfg prompt (push_message (user_turn prompt) s))).
Proof.
  destruct (process_message_run env cfg prompt s) as (kv & t & Hsend & Hrun).
  cbv zeta in Hrun. rewrite Hrun, Hsend. clear Hrun. project.
  set (s0 := push_message (user_turn prompt) s).
  destruct (py_get (get_or kv "message" (PDict [])) "content" (PList []))
    as [content | e]; project.
  - pose proof (display_content_silent env content (get_or kv "request_id" PNone)
                  None s0) as Hsilent.
    apply posts_silent in Hsilent.
    destruct (outcome (display_content env content _ None s0)); project;
      rewrite !posts_app, Hsilent, app_nil_r; reflexivity.
  - rewrite posts_app. reflexivity.
Qed.

Lemma process_message_posts_once env cfg prompt s :
  length (posts (shown (process_message env cfg prompt s))) <= 1.
Proof.
  rewrite process_message_posts.
  destruct (send_message_total env cfg prompt (push_message (user_turn prompt) s))
    as (kv & t & Hrun & Hlen).
  rewrite Hrun. project. exact Hlen.
Qed.

(* ===================================================================== *)
(** ** Further properties: the log *)
(* ===================================================================== *)

Lemma get_or_set_same kv k v default : get_or (dict_set kv k v) k default = v.
Proof. unfold get_or. rewrite dict_get_set_same. reflexivity. Qed.

Lemma get_or_set_other kv k k' v default :
  k' <> k -> get_or (dict_set kv k v) k' default = get_or kv k' default.
Proof. intros H. unfold get_or. rewrite dict_get_set_other by exact H. reflexivity. Qed.

(** X4.  What a successful exchange leaves in the log.  When the call has
    posted a request, the response to it has a status below 400 and a JSON
    object as body, and the call returns, the assistant turn it appends
    holds the ["content"] of the object's ["message"] (the empty list when
    either key is missing) and, as request id, the value of the response
    header, not the object's own ["request_id"]. *)
Theorem answer_is_stored env cfg prompt s req resp kv :
  posts (shown (process_message env cfg prompt s)) = [req] ->
  requests_post env req = Returned resp ->
  (status_code resp < 400)%Z ->
  resp_json resp = Returned (PDict kv) ->
  outcome (process_message env cfg prompt s) = Ok tt ->
  exists content,
    py_get (get_or kv "message" (PDict [])) "content" (PList []) = Ok content
    /\ messages (final (process_message env cfg prompt s))
       = messages s
         ++ [user_turn prompt;
             assistant_turn content (opt_str (header_request_id resp))].
Proof.
  intros Hposted Hresp Hstatus Hjson Hok.
  rewrite process_message_posts in Hposted.
  pose proof (send_message_merged env cfg prompt _ req resp kv
                Hposted Hresp Hstatus Hjson) as Hmerged.
  destruct (process_message_run env cfg prompt s) as (kv' & t & Hsend & Hrun).
  cbv zeta in Hrun. rewrite Hsend in Hmerged. rewrite outcome_triple in Hmerged.
  injection Hmerged as ->.
  rewrite Hrun in Hok |- *. clear Hrun.
  rewrite !get_or_set_same in Hok |- *.
  rewrite !(get_or_set_other kv "request_id" "message") in Hok |- * by discriminate.
  set (s0 := push_message (user_turn prompt) s) in *.
  destruct (py_get (get_or kv "message" (PDict [])) "content" (PList []))
    as [content | e]; [| rewrite outcome_triple in Hok; discriminate].
  exists content. split; [reflexivity |].
  pose proof (display_content_frame env content (opt_str (header_request_id resp))
                None s0) as (_ & Hm & _).
  destruct (outcome (display_content env content (opt_str (header_request_id resp))
                       None s0)) as [[] | e];
    [| rewrite outcome_triple in Hok; discriminate].
  project. cbn [push_message messages]. rewrite Hm.
  cbn [s0 push_message messages]. rewrite <- app_assoc. reflexivity.
Qed.

Lemma answer_is_stored_witness :
  let env := Samples.env_of (Some Samples.full_config) (Returned Samples.ok_response)
               Samples.quiet None in
  let run := process_message env Samples.full_config (PStr "What is total revenue?")
               Samples.session0 in
  outcome run = Ok tt
  /\ exists content,
       messages (final run)
       = [user_turn (PStr "What is total revenue?");
          assistant_turn content (PStr "abc-123")].
Proof.
  intros env run.
  assert (Hok : outcome run = Ok tt) by reflexivity.
  split; [exact Hok |].
  destruct (answer_is_stored env Samples.full_config (PStr "What is total revenue?")
              Samples.session0 _ Samples.ok_response
              [("message",
                PDict [("content",
                        PList [PDict [("type", PStr "text");
                                      ("text", PStr "Revenue is $5M")]])])]
              eq_refl eq_refl eq_refl eq_refl Hok)
    as (content & _ & Hlog).
  exists content. exact Hlog.
Defined.

Lemma transcript_app log tail : transcript log -> transcript tail -> transcript (log ++ tail).
Proof.
  intros Hlog Htail. induction Htail as [| tail prompt _ IH | tail prompt content rid _ IH].
  - rewrite app_nil_r. exact Hlog.
  - rewrite app_assoc. apply transcript_asked. exact IH.
  - rewrite app_assoc. apply transcript_answered. exact IH.
Qed.

Lemma extends_refl s : extends s s.
Proof.
  repeat split. exists []. split; [rewrite app_nil_r; reflexivity | constructor].
Qed.

Lemma extends_trans s1 s2 s3 : extends s1 s2 -> extends s2 s3 -> extends s1 s3.
Proof.
  intros (Hc1 & Hs1 & tail1 & Hm1 & Ht1) (Hc2 & Hs2 & tail2 & Hm2 & Ht2).
  split; [congruence |]. split; [congruence |].
  exists (tail1 ++ tail2). split.
  - rewrite Hm2, Hm1, app_assoc. reflexivity.
  - apply transcript_app; assumption.
Qed.

Lemma frame_extends s s' : frame s s' -> extends s s'.
Proof.
  intros (Hc & Hm & Hs). repeat split; try assumption.
  exists []. split; [rewrite app_nil_r; exact Hm | constructor].
Qed.

Lemma stable_frame_extends {A : Type} (m : M A) : stable frame m -> stable extends m.
Proof. intros H s. apply frame_extends, H. Qed.

Lemma process_message_extends env cfg prompt :
  stable extends (process_message env cfg prompt).
Proof.
  intros s.
  destruct (process_message_run env cfg prompt s) as (kv & t & _ & Hrun).
  cbv zeta in Hrun. rewrite Hrun. clear Hrun.
  set (s0 := push_message (user_turn prompt) s).
  assert (Hasked : transcript [user_turn prompt])
    by apply (transcript_asked [] prompt transcript_empty).
  destruct (py_get (get_or kv "message" (PDict [])) "content" (PList []))
    as [content | e]; project.
  - pose proof (display_content_frame env content (get_or kv "request_id" PNone) None s0)
      as (Hc & Hm & Hs).
    destruct (outcome (display_content env content _ None s0)); project;
      (split; [cbn [push_message CONN]; rewrite Hc; reflexivity |]);
      (split; [cbn [push_message suggestions]; rewrite Hs; reflexivity |]).
    + exists [user_turn prompt; assistant_turn content (get_or kv "request_id" PNone)].
      split.
      * cbn [push_message messages]. rewrite Hm. cbn [s0 push_message messages].
        rewrite <- app_assoc. reflexivity.
      * apply (transcript_answered [] prompt _ _ transcript_empty).
    + exists [user_turn prompt]. split; [rewrite Hm; reflexivity | exact Hasked].
  - repeat split. exists [user_turn prompt]. split; [reflexivity | exact Hasked].
Qed.

Lemma page_body_extends env cfg : stable extends (page_body env cfg).
Proof.
  unfold page_body, display_existing_messages, process_user_input,
    handle_active_suggestion.
  stable_walk extends_refl extends_trans
    ltac:(first [ apply process_message_extends
                | apply stable_frame_extends; apply display_content_frame
                | apply stable_frame_extends; apply stable_set_active_suggestion ]).
Qed.

(** X5.  A run of the script only ever adds to the log.  Whatever happens
    in the run (a halt at start-up, an exception, zero, one or two prompts
    processed), the log kept in the session afterwards is the log kept
    before, followed by the turns of the questions asked in the run; a
    connection kept in the session is still the one kept afterwards. *)
Theorem run_page_appends env ss :
  (exists tail,
     stored_log (page_state (run_page env ss)) = stored_log ss ++ tail
     /\ transcript tail)
  /\ (forall conn,
        ss_CONN ss = Some conn ->
        ss_CONN (page_state (run_page env ss)) = Some conn).
Proof.
  assert (Hsame : forall t : list event,
             (exists tail, stored_log ss = stored_log ss ++ tail /\ transcript tail))
    by (intros _; exists []; split; [rewrite app_nil_r; reflexivity | constructor]).
  unfold run_page, page_state.
  destruct (secrets env) as [cfg |]; [| cbn; split; [apply Hsame; exact [] | auto]].
  unfold initialize_connection.
  destruct (ss_CONN ss) as [conn0 |] eqn:Hconn.
  - destruct (dict_get cfg "file") as [file |]; cbn [fst snd].
    + pose proof (page_body_extends env cfg
                    (thaw conn0 match ss_chat ss with Some c => c | None => fresh_chat end))
        as (Hc & _ & tail & Hm & Ht).
      destruct (page_body env cfg _) as [[r s'] t2]; cbn [fst snd] in *.
      unfold final in *; cbn [fst snd] in *.
      split.
      * exists tail. split; [| exact Ht].
        unfold stored_log, freeze; cbn [ss_chat cs_messages]. rewrite Hm.
        destruct (ss_chat ss); reflexivity.
      * intros conn Hsome. injection Hsome as <-.
        unfold freeze; cbn [ss_CONN]. rewrite Hc. reflexivity.
    + split; [apply Hsame; exact [] | intros conn Hsome; exact Hsome].
  - destruct (rbind (connect_kwargs env cfg) (fun args => of_attempt (connect env args)))
      as [conn1 | e].
    + destruct (dict_get cfg "file") as [file |]; cbn [fst snd].
      * pose proof (page_body_extends env cfg
                      (thaw conn1 match ss_chat ss with Some c => c | None => fresh_chat end))
          as (_ & _ & tail & Hm & Ht).
        destruct (page_body env cfg _) as [[r s'] t2]; cbn [fst snd] in *.
        unfold final in *; cbn [fst snd] in *.
        split; [| intros conn Hsome; discriminate].
        exists tail. split; [| exact Ht].
        unfold stored_log, freeze; cbn [ss_chat cs_messages]. rewrite Hm.
        destruct (ss_chat ss); reflexivity.
      * split; [apply Hsame; exact [] | intros conn Hsome; discriminate].
    + destruct (is_Exception e); cbn [fst snd];
        (split; [apply Hsame; exact [] | intros conn Hsome; congruence]).
Qed.

Lemma transcript_roles log :
  transcript log ->
  Forall (fun t => turn_role t = "user" /\ turn_request_id t = None
                   \/ turn_role t = "assistant" /\ turn_request_id t <> None) log.
Proof.
  induction 1 as [| log prompt _ IH | log prompt content rid _ IH].
  - constructor.
  - apply Forall_app. split; [exact IH |].
    repeat constructor.
  - apply Forall_app. split; [exact IH |].
    constructor; [left; split; reflexivity |].
    constructor; [right; split; [reflexivity | discriminate] | constructor].
Qed.

Lemma transcript_first log t rest :
  transcript log -> log = t :: rest -> exists prompt, t = user_turn prompt.
Proof.
  intros Hlog. revert t rest.
  induction Hlog as [| log prompt Hlog IH | log prompt content rid Hlog IH];
    intros t rest Heq.
  - discriminate.
  - destruct log as [| t0 log]; cbn in Heq; injection Heq as <- _.
    + exists prompt. reflexivity.
    + eapply IH. reflexivity.
  - destruct log as [| t0 log]; cbn in Heq; injection Heq as <- _.
    + exists prompt. reflexivity.
    + eapply IH. reflexivity.
Qed.

Lemma run_pages_transcript envs :
  forall ss, transcript (stored_log ss) -> transcript (stored_log (run_pages envs ss)).
Proof.
  induction envs as [| env envs IH]; intros ss Hlog; cbn [run_pages]; [exact Hlog |].
  apply IH.
  assert (Hext : exists tail,
             stored_log (page_state (run_page env ss)) = stored_log ss ++ tail
             /\ transcript tail).
  { unfold run_page, page_state.
    assert (Hsame : exists tail, stored_log ss = stored_log ss ++ tail /\ transcript tail)
      by (exists []; split; [rewrite app_nil_r; reflexivity | constructor]).
    destruct (secrets env) as [cfg |]; [| exact Hsame].
    destruct (initialize_connection env cfg ss) as [[conn | e] t1]; [| exact Hsame].
    destruct (dict_get cfg "file") as [file |]; [| exact Hsame].
    pose proof (page_body_extends env cfg
                  (thaw conn match ss_chat ss with Some c => c | None => fresh_chat end))
      as (_ & _ & tail & Hm & Ht).
    destruct (page_body env cfg _) as [[r s'] t2]. unfold final in Hm; cbn [fst snd] in *.
    exists tail. split; [| exact Ht].
    unfold stored_log, freeze; cbn [ss_chat cs_messages]. rewrite Hm.
    destruct (ss_chat ss); reflexivity. }
  destruct Hext as (tail & -> & Htail). apply transcript_app; assumption.
Qed.

(** X6.  The shape of every log.  After any series of runs of the script
    that starts in a fresh session, the log is a series of questions, each
    followed by its answer unless the call that asked it raised: every turn
    is a user turn without a request id or an assistant turn with one, and
    the first turn, when there is one, is a user turn holding its prompt as
    one text block. *)
Theorem every_log_is_a_transcript envs :
  let log := stored_log (run_pages envs fresh_session_state) in
  transcript log
  /\ Forall (fun t => turn_role t = "user" /\ turn_request_id t = None
                      \/ turn_role t = "assistant" /\ turn_request_id t <> None) log
  /\ (forall t rest,
        log = t :: rest ->
        exists prompt,
          t = {| turn_role := "user";
                 turn_content := PList [PDict [("type", PStr "text"); ("text", prompt)]];
                 turn_request_id := None |}).
Proof.
  intros log.
  assert (Hlog : transcript log)
    by (apply run_pages_transcript; constructor).
  split; [exact Hlog |]. split; [apply transcript_roles; exact Hlog |].
  intros t rest Heq. exact (transcript_first log t rest Hlog Heq).
Qed.

(** What the loop shows for a user turn, at any position. *)
Lemma render_user_turn env s i prompt :
  render_turn env s i (user_turn prompt) = [EvChatMessage "user"; EvMarkdown prompt].
Proof.
  unfold render_turn, user_turn, display_content;
    cbn [turn_role turn_content turn_get_request_id turn_request_id].
  rewrite bind_get_session. cbn [truthy]. rewrite bind_ret_l.
  cbn [lift py_iter]. rewrite bind_ret_l. cbn [for_each].
  unfold display_item. cbn [py_getitem dict_get String.eqb Ascii.eqb Bool.eqb lift].
  reflexivity.
Qed.

(** X7.  The fallback of line 83 never reaches a widget.  The loop hands
    position 0 to [display_content], where [0 or len(...)] turns it into the
    length of the log; but in every session reached from a fresh one the
    turn at position 0 is a user turn, for which the loop shows the role and
    the prompt and no button, so no widget key is ever built from the
    replaced index. *)
Theorem first_turn_has_no_button envs env s t rest :
  stored_log (run_pages envs fresh_session_state) = t :: rest ->
  exists prompt,
    render_turn env s 0 t = [EvChatMessage "user"; EvMarkdown prompt]
    /\ button_keys (render_turn env s 0 t) = [].
Proof.
  intros Hlog.
  assert (Htr : transcript (stored_log (run_pages envs fresh_session_state)))
    by (apply run_pages_transcript; constructor).
  destruct (transcript_first _ t rest Htr Hlog) as (prompt & ->).
  exists prompt. rewrite render_user_turn. split; reflexivity.
Qed.

Lemma first_turn_has_no_button_witness :
  stored_log (run_pages [Samples.env_ask; Samples.env_press] fresh_session_state)
  = user_turn (PStr "What is total revenue?")
    :: tl (stored_log (run_pages [Samples.env_ask; Samples.env_press]
                         fresh_session_state))
  /\ button_keys
       (render_turn Samples.env_idle Samples.session0 0
          (user_turn (PStr "What is total revenue?"))) = [].
Proof.
  assert (Hlog : stored_log (run_pages [Samples.env_ask; Samples.env_press]
                               fresh_session_state)
                 = user_turn (PStr "What is total revenue?")
                   :: tl (stored_log (run_pages [Samples.env_ask; Samples.env_press]
                                        fresh_session_state)))
    by (vm_compute; reflexivity).
  split; [exact Hlog |].
  destruct (first_turn_has_no_button [Samples.env_ask; Samples.env_press]
              Samples.env_idle Samples.session0 _ _ Hlog) as (prompt & _ & Hkeys).
  exact Hkeys.
Defined.

(* ===================================================================== *)
(** ** Further properties: what a run sends and changes *)
(* ===================================================================== *)

Lemma session_ext (a b : session) :
  CONN a = CONN b -> messages a = messages b -> suggestions a = suggestions b ->
  active_suggestion a = active_suggestion b -> a = b.
Proof. destruct a, b; cbn; intros; subst; reflexivity. Qed.

Lemma display_existing_messages_frame env : stable frame (display_existing_messages env).
Proof.
  unfold display_existing_messages.
  stable_walk frame_refl frame_trans ltac:(apply display_content_frame).
Qed.

(** With no button pressed, drawing the transcript leaves the session as it
    found it. *)
Lemma display_existing_messages_quiet env s :
  (forall key, button_pressed env key = false) ->
  final (display_existing_messages env s) = s.
Proof.
  intros Hquiet.
  destruct (display_existing_messages_frame env s) as (Hc & Hm & Hs).
  pose proof (display_existing_messages_same_slot env Hquiet s) as Hslot.
  apply session_ext; assumption.
Qed.

(** X8.  Drawing the transcript again is passive.  The loop of lines
    126-132 posts nothing and leaves the log, the connection and the
    [suggestions] attribute alone, whether it completes or an exception
    ends it; the one thing it can change is the pending-suggestion slot,
    and when no button was pressed it leaves the whole session as it found
    it. *)
Theorem rerender_is_passive env s :
  let run := display_existing_messages env s in
  posts (shown run) = []
  /\ messages (final run) = messages s
  /\ CONN (final run) = CONN s
  /\ suggestions (final run) = suggestions s
  /\ ((forall key, button_pressed env key = false) -> final run = s).
Proof.
  intros run.
  destruct (display_existing_messages_frame env s) as (Hc & Hm & Hs).
  split; [apply posts_silent, display_existing_messages_silent |].
  repeat (split; [assumption |]).
  intros Hquiet. apply display_existing_messages_quiet. exact Hquiet.
Qed.

Lemma rerender_is_passive_witness :
  let run := display_existing_messages Samples.env_idle Samples.offer_session in
  (forall key, button_pressed Samples.env_idle key = false)
  /\ posts (shown run) = []
  /\ final run = Samples.offer_session.
Proof.
  intros run.
  assert (Hquiet : forall key, button_pressed Samples.env_idle key = false)
    by (intros key; reflexivity).
  split; [exact Hquiet |].
  destruct (rerender_is_passive Samples.env_idle Samples.offer_session)
    as (Hposts & _ & _ & _ & Hsame).
  split; [exact Hposts | exact (Hsame Hquiet)].
Defined.

Lemma process_user_input_idle env cfg s :
  chat_input env = None \/ chat_input env = Some "" ->
  process_user_input env cfg s = (Ok tt, s, [EvChatInput "What is your question?"]).
Proof.
  intros [H | H]; unfold process_user_input; rewrite bind_emit, H; reflexivity.
Qed.

(** X9.  A run without a prompt changes nothing and sends nothing.  When no
    button is pressed, nothing was typed into the chat box and the slot
    holds nothing truthy ([None] or the empty string), a pass over lines
    126-141 leaves the session exactly as it was and posts no request, also
    when drawing the transcript raises. *)
Theorem idle_run_changes_nothing env cfg s :
  (forall key, button_pressed env key = false) ->
  chat_input env = None \/ chat_input env = Some "" ->
  truthy (active_suggestion s) = false ->
  final (page_body env cfg s) = s
  /\ posts (shown (page_body env cfg s)) = [].
Proof.
  intros Hquiet Hinput Hslot. unfold page_body.
  pose proof (display_existing_messages_quiet env s Hquiet) as Hsame.
  pose proof (posts_silent _ (display_existing_messages_silent env s)) as Hsilent.
  rewrite bind_run.
  destruct (outcome (display_existing_messages env s)); project.
  - rewrite Hsame, bind_run, (process_user_input_idle env cfg s Hinput). project.
    rewrite (handle_active_suggestion_falsy env cfg s Hslot). project.
    split; [reflexivity |].
    rewrite posts_app, Hsilent. reflexivity.
  - split; assumption.
Qed.

Lemma idle_run_changes_nothing_witness :
  (forall key, button_pressed Samples.env_idle key = false)
  /\ chat_input Samples.env_idle = None
  /\ truthy (active_suggestion Samples.offer_session) = false
  /\ final (page_body Samples.env_idle Samples.full_config Samples.offer_session)
     = Samples.offer_session.
Proof.
  assert (Hquiet : forall key, button_pressed Samples.env_idle key = false)
    by (intros key; reflexivity).
  split; [exact Hquiet |]. split; [reflexivity |]. split; [reflexivity |].
  apply (idle_run_changes_nothing Samples.env_idle Samples.full_config
           Samples.offer_session Hquiet (or_introl eq_refl) eq_refl).
Defined.

Lemma process_user_input_posts env cfg s :
  length (posts (shown (process_user_input env cfg s)))
  <= match chat_input env with Some _ => 1 | None => 0 end.
Proof.
  unfold process_user_input. rewrite bind_emit. project. cbn [app posts].
  destruct (chat_input env) as [user_input |]; [| cbn; lia].
  destruct (truthy (PStr user_input)); [apply process_message_posts_once | cbn; lia].
Qed.

Lemma handle_active_suggestion_posts env cfg s :
  length (posts (shown (handle_active_suggestion env cfg s))) <= 1.
Proof.
  destruct (truthy (active_suggestion s)) eqn:Hslot.
  - rewrite (handle_active_suggestion_truthy env cfg s Hslot).
    pose proof (process_message_posts_once env cfg (active_suggestion s) s) as Hle.
    destruct (outcome (process_message env cfg (active_suggestion s) s)); project;
      exact Hle.
  - rewrite (handle_active_suggestion_falsy env cfg s Hslot). cbn. lia.
Qed.

(** X10.  A run sends at most one request per prompt it processes: at most
    two in all (the text typed into the chat box, then the pending
    suggestion), and at most one when nothing was typed. *)
Theorem run_posts_at_most_twice env cfg s :
  length (posts (shown (page_body env cfg s)))
  <= match chat_input env with Some _ => 2 | None => 1 end.
Proof.
  unfold page_body.
  pose proof (posts_silent _ (display_existing_messages_silent env s)) as Hsilent.
  rewrite bind_run.
  destruct (outcome (display_existing_messages env s)); project;
    [| rewrite Hsilent; destruct (chat_input env); cbn; lia].
  rewrite posts_app, Hsilent, app_nil_l.
  set (s1 := final (display_existing_messages env s)) in *.
  pose proof (process_user_input_posts env cfg s1) as Hinput.
  rewrite bind_run.
  destruct (outcome (process_user_input env cfg s1)); project.
  - rewrite posts_app, length_app.
    pose proof (handle_active_suggestion_posts env cfg
                  (final (process_user_input env cfg s1))) as Hslot.
    destruct (chat_input env); lia.
  - destruct (chat_input env); lia.
Qed.

(* ===================================================================== *)
(** ** Further properties: the renderer, block by block *)
(* ===================================================================== *)

Lemma bind_assoc {A B C : Type} (m : M A) (f : A -> M B) (g : B -> M C) s :
  bind (bind m f) g s = bind m (fun a => bind (f a) g) s.
Proof.
  unfold bind. destruct (m s) as [[[a | e] s1] t1]; [| reflexivity].
  destruct (f a s1) as [[[b | e] s2] t2]; [| reflexivity].
  destruct (g b s2) as [[r s3] t3]. rewrite app_assoc. reflexivity.
Qed.

Lemma bind_ext {A B : Type} (m : M A) (f g : A -> M B) s :
  (forall a s', f a s' = g a s') -> bind m f s = bind m g s.
Proof.
  intros H. unfold bind. destruct (m s) as [[[a | e] s1] t1]; [| reflexivity].
  rewrite H. reflexivity.
Qed.

(** A computation that does nothing can be left out of a sequence. *)
Lemma bind_skip {B : Type} (m : M unit) (g : unit -> M B) s :
  m s = (Ok tt, s, []) -> bind m g s = g tt s.
Proof.
  intros H. unfold bind. rewrite H. destruct (g tt s) as [[r s2] t2]. reflexivity.
Qed.

Lemma for_each_app {A : Type} (xs ys : list A) (body : A -> M unit) s :
  for_each (xs ++ ys) body s
  = bind (for_each xs body) (fun _ => for_each ys body) s.
Proof.
  revert s. induction xs as [| x xs IH]; intros s; cbn [List.app for_each].
  - rewrite bind_ret_l. reflexivity.
  - rewrite bind_assoc. apply bind_ext. intros _ s'. apply IH.
Qed.

(** [display_content] on a list: the request id panel, then the blocks. *)
Lemma display_content_list env blocks request_id mi s :
  display_content env (PList blocks) request_id mi s
  = bind (if truthy request_id then
            emit (EvExpander "Request ID" false) ;; emit (EvMarkdown request_id)
          else ret tt)
      (fun _ => for_each blocks
                  (display_item env (index_or_len mi (length (messages s))))) s.
Proof.
  unfold display_content. rewrite bind_get_session.
  apply bind_ext. intros _ s'. cbn [lift py_iter]. rewrite bind_ret_l. reflexivity.
Qed.

(** A block whose type is none of the three is passed over. *)
Lemma display_item_unknown env idx item ty s :
  py_getitem item "type" = Ok ty ->
  py_eq_str ty "text" = false ->
  py_eq_str ty "suggestions" = false ->
  py_eq_str ty "sql" = false ->
  display_item env idx item s = (Ok tt, s, []).
Proof.
  intros Hty H1 H2 H3. unfold display_item. rewrite Hty. cbn [lift].
  rewrite bind_ret_l, H1, bind_ret_l, H2, bind_ret_l, H3. reflexivity.
Qed.

(** X11.  A block of an unknown type is invisible.  A block that has a
    ["type"] other than text, suggestions and sql can be put anywhere in a
    content list without any effect: what is shown, the session reached
    and the way the call ends are those of the list without it. *)
Theorem unknown_block_is_invisible env before item after request_id mi s ty :
  py_getitem item "type" = Ok ty ->
  py_eq_str ty "text" = false ->
  py_eq_str ty "suggestions" = false ->
  py_eq_str ty "sql" = false ->
  display_content env (PList (before ++ item :: after)) request_id mi s
  = display_content env (PList (before ++ after)) request_id mi s.
Proof.
  intros Hty H1 H2 H3. rewrite !display_content_list.
  apply bind_ext. intros _ s'. rewrite !for_each_app.
  apply bind_ext. intros _ s''. cbn [for_each].
  apply bind_skip. apply (display_item_unknown env _ item ty s'' Hty H1 H2 H3).
Qed.

Lemma unknown_block_is_invisible_witness :
  let chart := PDict [("type", PStr "chart"); ("spec", PStr "bars")] in
  let text := PDict [("type", PStr "text"); ("text", PStr "Revenue is $5M")] in
  py_getitem chart "type" = Ok (PStr "chart")
  /\ display_content Samples.env_idle (PList ([text] ++ chart :: [text])) PNone None
       Samples.session0
     = display_content Samples.env_idle (PList ([text] ++ [text])) PNone None
         Samples.session0.
Proof.
  intros chart text. split; [reflexivity |].
  apply (unknown_block_is_invisible Samples.env_idle [text] chart [text] PNone None
           Samples.session0 (PStr "chart")); reflexivity.
Defined.

(** X12.  A block that raises ends the pass.  When the blocks before it
    are drawn without an exception and the block itself raises,
    [display_content] raises the same exception; what it has shown is what
    the blocks before showed, then what the failing block showed before it
    raised, and nothing of the blocks after it. *)
Theorem failing_block_ends_the_pass env before bad after request_id mi s e :
  let drawn := display_content env (PList before) request_id mi s in
  let failing :=
    display_item env (index_or_len mi (length (messages s))) bad (final drawn) in
  outcome drawn = Ok tt ->
  outcome failing = Raise e ->
  display_content env (PList (before ++ bad :: after)) request_id mi s
  = (Raise e, final failing, shown drawn ++ shown failing).
Proof.
  intros drawn failing Hdrawn Hfail. subst drawn failing.
  rewrite display_content_list in *.
  set (panel := if truthy request_id then _ else _) in *.
  set (body := display_item env (index_or_len mi (length (messages s)))) in *.
  transitivity
    (bind (bind panel (fun _ => for_each before body))
       (fun _ => for_each (bad :: after) body) s).
  - rewrite bind_assoc. apply bind_ext. intros _ s'. apply for_each_app.
  - rewrite bind_run, Hdrawn. cbn [for_each].
    rewrite (bind_run (body bad)), Hfail.
    rewrite !display_content_list. reflexivity.
Qed.

(** X13.  An SQL block whose query fails.  The statement panel, the
    Results panel and the spinner are drawn, then the exception of the
    query leaves [display_item]: no table and no chart is drawn, nothing
    catches the exception, and the session is as it was. *)
Theorem sql_failure_shows_no_result env mi item statement msg s :
  py_getitem item "type" = Ok (PStr "sql") ->
  py_getitem item "statement" = Ok statement ->
  read_sql_query env statement (CONN s) = Failed msg ->
  display_item env mi item s
  = (Raise (ExternalError msg), s,
     [EvExpander "SQL Query" false; EvCode statement "sql";
      EvExpander "Results" true; EvSpinner "Running SQL..."]).
Proof.
  intros Hty Hst Hq. unfold display_item.
  rewrite Hty, Hst. cbn [lift].
  rewrite bind_ret_l. change (py_eq_str (PStr "sql") "text") with false. cbv iota.
  rewrite bind_ret_l. change (py_eq_str (PStr "sql") "suggestions") with false. cbv iota.
  rewrite bind_ret_l. change (py_eq_str (PStr "sql") "sql") with true. cbv iota.
  repeat run_step. rewrite Hq. cbn [lift of_attempt]. repeat run_step. reflexivity.
Qed.

Lemma failing_block_ends_the_pass_witness :
  let env :=
    {| secrets := Some Samples.full_config;
       secrets_key_error := Samples.no_such_secret;
       connect := fun _ => Returned Samples.conn0;
       requests_post := fun _ => Failed "unreachable";
       read_sql_query := fun _ _ => Failed "SQL compilation error";
       button_pressed := Samples.quiet;
       chat_input := None |} in
  let text := PDict [("type", PStr "text"); ("text", PStr "Revenue is $5M")] in
  let run := display_content env (PList ([text] ++ Samples.sql_item :: [text]))
               PNone None Samples.session0 in
  outcome (display_content env (PList [text]) PNone None Samples.session0) = Ok tt
  /\ outcome run = Raise (ExternalError "SQL compilation error")
  /\ shown run
     = [EvMarkdown (PStr "Revenue is $5M");
        EvExpander "SQL Query" false;
        EvCode (PStr "SELECT month, revenue FROM sales") "sql";
        EvExpander "Results" true; EvSpinner "Running SQL..."].
Proof.
  intros env text run.
  assert (Hdrawn : outcome (display_content env (PList [text]) PNone None
                              Samples.session0) = Ok tt) by reflexivity.
  split; [exact Hdrawn |].
  subst run.
  rewrite (failing_block_ends_the_pass env [text] Samples.sql_item [text] PNone None
             Samples.session0 (ExternalError "SQL compilation error") Hdrawn eq_refl).
  split; reflexivity.
Defined.

Lemma sql_failure_shows_no_result_witness :
  let env :=
    {| secrets := Some Samples.full_config;
       secrets_key_error := Samples.no_such_secret;
       connect := fun _ => Returned Samples.conn0;
       requests_post := fun _ => Failed "unreachable";
       read_sql_query := fun _ _ => Failed "SQL compilation error";
       button_pressed := Samples.quiet;
       chat_input := None |} in
  read_sql_query env (PStr "SELECT month, revenue FROM sales") (CONN Samples.session0)
  = Failed "SQL compilation error"
  /\ outcome (display_item env 1 Samples.sql_item Samples.session0)
     = Raise (ExternalError "SQL compilation error").
Proof.
  intros env. split; [reflexivity |].
  rewrite (sql_failure_shows_no_result env 1 Samples.sql_item
             (PStr "SELECT month, revenue FROM sales") "SQL compilation error"
             Samples.session0); reflexivity.
Defined.

(** The session after the buttons of a block, when the button of
    suggestion [j] is the one that was pressed. *)
Lemma display_suggestions_pressed env idx j l :
  (forall i, button_pressed env (widget_key idx i) = Nat.eqb i j) ->
  forall k s,
    final (for_enumerate k l (display_suggestion env idx) s)
    = match nth_error l (j - k) with
      | Some v => if Nat.leb k j then store_active_suggestion v s else s
      | None => s
      end.
Proof.
  intros Hpressed. induction l as [| v rest IH]; intros k s; cbn [for_enumerate].
  - destruct (j - k); reflexivity.
  - rewrite final_bind, display_suggestion_run. project. cbv iota.
    rewrite IH, Hpressed.
    destruct (Nat.eqb_spec k j) as [-> | Hne].
    + rewrite Nat.sub_diag. cbn [nth_error]. rewrite Nat.leb_refl.
      replace (j - S j) with 0 by lia.
      destruct rest as [| v' rest']; cbn [nth_error]; [reflexivity |].
      replace (Nat.leb (S j) j) with false by (symmetry; apply Nat.leb_gt; lia).
      reflexivity.
    + destruct (Nat.leb_spec k j) as [Hle | Hgt].
      * replace (j - k) with (S (j - S k)) by lia. cbn [nth_error].
        replace (Nat.leb (S k) j) with true by (symmetry; apply Nat.leb_le; lia).
        reflexivity.
      * replace (j - k) with 0 by lia. replace (j - S k) with 0 by lia.
        cbn [nth_error].
        replace (Nat.leb (S k) j) with false by (symmetry; apply Nat.leb_gt; lia).
        destruct rest; reflexivity.
Qed.

(** An item that is a suggestions block. *)
Lemma display_item_suggestions env idx item l s :
  py_getitem item "type" = Ok (PStr "suggestions") ->
  py_getitem item "suggestions" = Ok (PList l) ->
  display_item env idx item s
  = prepend [EvExpander "Suggestions" true]
      (for_enumerate 0 l (display_suggestion env idx) s).
Proof.
  intros Hty Hl. unfold display_item. rewrite Hty, Hl. cbn [lift].
  rewrite bind_ret_l. change (py_eq_str (PStr "suggestions") "text") with false.
  cbv iota.
  rewrite bind_ret_l. change (py_eq_str (PStr "suggestions") "suggestions") with true.
  cbv iota.
  rewrite bind_emit, bind_ret_l. cbn [py_iter lift]. rewrite bind_ret_l. reflexivity.
Qed.

Lemma button_keys_of_buttons idx l k :
  button_keys (map (fun p : nat * pyval => EvButton (snd p) (widget_key idx (fst p)))
                 (combine (seq k (length l)) l))
  = map (widget_key idx) (seq k (length l)).
Proof.
  revert k. induction l as [| v rest IH]; intros k; [reflexivity |].
  cbn [List.length seq combine map button_keys fst snd]. rewrite IH. reflexivity.
Qed.

(** X14.  A suggestions block that is drawn without an exception is shown
    as the expanded panel followed by one button per suggestion, in the
    order of the list, each labelled with its suggestion and keyed by the
    index of the block's turn and its own position; the keys of the block
    are pairwise different. *)
Theorem suggestions_block_buttons env idx item l s :
  py_getitem item "type" = Ok (PStr "suggestions") ->
  py_getitem item "suggestions" = Ok (PList l) ->
  outcome (display_item env idx item s) = Ok tt ->
  let run := display_item env idx item s in
  shown run
  = EvExpander "Suggestions" true
    :: map (fun p => EvButton (snd p) (widget_key idx (fst p)))
         (combine (seq 0 (length l)) l)
  /\ length (button_keys (shown run)) = length l
  /\ NoDup (button_keys (shown run)).
Proof.
  intros Hty Hl _ run. subst run.
  rewrite (display_item_suggestions env idx item l s Hty Hl).
  destruct (display_suggestions_run env idx l 0 s) as (_ & Hsh).
  project. rewrite Hsh. cbn [List.app button_keys].
  rewrite button_keys_of_buttons, length_map, length_seq.
  repeat split. apply block_keys_distinct.
Qed.

Lemma suggestions_block_buttons_witness :
  let item := PDict [("type", PStr "suggestions");
                     ("suggestions", PList [PStr "Show revenue by month"; PStr ""])] in
  py_getitem item "suggestions" = Ok (PList [PStr "Show revenue by month"; PStr ""])
  /\ outcome (display_item Samples.env_idle 1 item Samples.session0) = Ok tt
  /\ shown (display_item Samples.env_idle 1 item Samples.session0)
     = [EvExpander "Suggestions" true;
        EvButton (PStr "Show revenue by month") "1_0";
        EvButton (PStr "") "1_1"].
Proof.
  intros item. split; [reflexivity |]. split; [reflexivity |].
  destruct (suggestions_block_buttons Samples.env_idle 1 item
              [PStr "Show revenue by month"; PStr ""] Samples.session0
              eq_refl eq_refl eq_refl)
    as (Hshown & _).
  exact Hshown.
Defined.

(** X15.  The press is matched to its suggestion by position.  When the
    button that was pressed is the one keyed for suggestion [j] of this
    block, drawing the block leaves the text of suggestion [j] in the slot
    and changes nothing else in the session; no other suggestion of the
    block is stored. *)
Theorem pressed_suggestion_is_stored env idx item l j v s :
  py_getitem item "type" = Ok (PStr "suggestions") ->
  py_getitem item "suggestions" = Ok (PList l) ->
  (forall i, button_pressed env (widget_key idx i) = Nat.eqb i j) ->
  nth_error l j = Some v ->
  final (display_item env idx item s) = store_active_suggestion v s.
Proof.
  intros Hty Hl Hpressed Hj.
  rewrite (display_item_suggestions env idx item l s Hty Hl). project.
  rewrite (display_suggestions_pressed env idx j l Hpressed 0 s).
  rewrite Nat.sub_0_r, Hj. reflexivity.
Qed.

Lemma pressed_suggestion_is_stored_witness :
  let item := PDict [("type", PStr "suggestions");
                     ("suggestions", PList [PStr "Show revenue by month"; PStr ""])] in
  (forall i, button_pressed Samples.env_press (widget_key 1 i) = Nat.eqb i 0)
  /\ active_suggestion (final (display_item Samples.env_press 1 item Samples.session0))
     = PStr "Show revenue by month".
Proof.
  intros item.
  assert (Hpressed : forall i,
             button_pressed Samples.env_press (widget_key 1 i) = Nat.eqb i 0).
  { intros i. change (button_pressed Samples.env_press (widget_key 1 i))
      with (String.eqb (widget_key 1 i) (widget_key 1 0)).
    destruct (Nat.eqb_spec i 0) as [-> | Hne]; [apply String.eqb_refl |].
    apply String.eqb_neq. intros Hkey. apply widget_key_inj in Hkey. tauto. }
  split; [exact Hpressed |].
  rewrite (pressed_suggestion_is_stored Samples.env_press 1 item
             [PStr "Show revenue by month"; PStr ""] 0 (PStr "Show revenue by month")
             Samples.session0 eq_refl eq_refl Hpressed eq_refl).
  reflexivity.
Defined.

(* ===================================================================== *)
(** ** Further properties: a call that raises, and start-up *)
(* ===================================================================== *)

(** The log after a call of [process_message] that raised. *)
Lemma process_message_raised env cfg prompt s e :
  outcome (process_message env cfg prompt s) = Raise e ->
  messages (final (process_message env cfg prompt s))
  = messages s ++ [user_turn prompt].
Proof.
  intros Hraise.
  destruct (process_message_run env cfg prompt s) as (kv & t & _ & Hrun).
  cbv zeta in Hrun. rewrite Hrun in Hraise |- *. clear Hrun.
  set (s0 := push_message (user_turn prompt) s) in *.
  destruct (py_get (get_or kv "message" (PDict [])) "content" (PList []))
    as [content | e']; [| reflexivity].
  pose proof (display_content_frame env content (get_or kv "request_id" PNone) None s0)
    as (_ & Hm & _).
  destruct (outcome (display_content env content _ None s0)) as [[] | e''];
    [rewrite outcome_triple in Hraise; discriminate |].
  project. rewrite Hm. reflexivity.
Qed.

(** X16.  A suggestion whose call raises stays pending.  When lines 139-141
    find a truthy text in the slot and the call of [process_message] on it
    raises (a malformed reply, a failing query), the exception leaves the
    script before the reset of line 141: the slot still holds the text, the
    log has gained the user turn of the text and no answer, and the next
    run will find the slot truthy again.  (No button pressed in the run.) *)
Theorem failed_call_keeps_suggestion env cfg s e :
  (forall key, button_pressed env key = false) ->
  truthy (active_suggestion s) = true ->
  outcome (process_message env cfg (active_suggestion s) s) = Raise e ->
  let run := handle_active_suggestion env cfg s in
  outcome run = Raise e
  /\ active_suggestion (final run) = active_suggestion s
  /\ truthy (active_suggestion (final run)) = true
  /\ messages (final run) = messages s ++ [user_turn (active_suggestion s)].
Proof.
  intros Hquiet Hslot Hraise run. subst run.
  rewrite (handle_active_suggestion_truthy env cfg s Hslot), Hraise. project.
  pose proof (process_message_same_slot env cfg Hquiet (active_suggestion s) s) as Hkept.
  unfold same_slot in Hkept.
  split; [reflexivity |]. split; [exact Hkept |].
  split; [rewrite Hkept; exact Hslot |].
  apply (process_message_raised env cfg (active_suggestion s) s e Hraise).
Qed.

Lemma failed_call_keeps_suggestion_witness :
  let env :=
    {| secrets := Some Samples.full_config;
       secrets_key_error := Samples.no_such_secret;
       connect := fun _ => Returned Samples.conn0;
       requests_post := fun _ =>
         Returned
           {| status_code := 200; header_request_id := Some "abc-124";
              resp_text := "{}";
              resp_json :=
                Returned
                  (PDict [("message",
                           PDict [("content", PList [Samples.sql_item])])]) |};
       read_sql_query := fun _ _ => Failed "SQL compilation error";
       button_pressed := Samples.quiet;
       chat_input := None |} in
  let s := store_active_suggestion (PStr "Show revenue by month") Samples.offer_session in
  (forall key, button_pressed env key = false)
  /\ outcome (process_message env Samples.full_config (active_suggestion s) s)
     = Raise (ExternalError "SQL compilation error")
  /\ active_suggestion (final (handle_active_suggestion env Samples.full_config s))
     = PStr "Show revenue by month".
Proof.
  intros env s.
  assert (Hquiet : forall key, button_pressed env key = false)
    by (intros key; reflexivity).
  assert (Hraise : outcome (process_message env Samples.full_config
                              (active_suggestion s) s)
                   = Raise (ExternalError "SQL compilation error")) by reflexivity.
  split; [exact Hquiet |]. split; [exact Hraise |].
  destruct (failed_call_keeps_suggestion env Samples.full_config s
              (ExternalError "SQL compilation error") Hquiet eq_refl Hraise)
    as (_ & Hkept & _).
  exact Hkept.
Defined.

(** X17.  A connection kept in the session is reused.  When the session
    already holds a connection, a run of the script is the same whatever
    the connector would do: lines 15-29 do not call it, and the request
    and the queries of the run go through the connection that was kept. *)
Theorem cached_connection_is_reused env ss conn c :
  ss_CONN ss = Some conn ->
  run_page (with_connect c env) ss = run_page env ss
  /\ forall cfg, initialize_connection env cfg ss = (Ok conn, []).
Proof.
  intros Hconn. split.
  - unfold run_page, initialize_connection. rewrite Hconn.
    cbn [secrets with_connect]. destruct (secrets env) as [cfg |]; reflexivity.
  - intros cfg. unfold initialize_connection. rewrite Hconn. reflexivity.
Qed.

Lemma cached_connection_is_reused_witness :
  let ss := page_state (run_page Samples.env_ask fresh_session_state) in
  ss_CONN ss = Some Samples.conn0
  /\ run_page (with_connect (fun _ => Failed "network down") Samples.env_idle) ss
     = run_page Samples.env_idle ss.
Proof.
  intros ss.
  assert (Hconn : ss_CONN ss = Some Samples.conn0) by reflexivity.
  split; [exact Hconn |].
  destruct (cached_connection_is_reused Samples.env_idle ss Samples.conn0
              (fun _ => Failed "network down") Hconn) as (Hsame & _).
  exact Hsame.
Defined.

(** X18.  A connector that fails halts the run and stores nothing.  With
    the seven entries of the connection in place and no connection kept,
    an exception of [snowflake.connector.connect] ends the run with the one
    banner that quotes it; nothing else is drawn and the session state is
    as it was, so the next run tries to connect again. *)
Theorem connector_failure_halts env ss cfg args msg :
  secrets env = Some cfg ->
  ss_CONN ss = None ->
  connect_kwargs env cfg = Ok args ->
  connect env args = Failed msg ->
  run_page env ss
  = (Raise StopException, ss, [EvError ("Failed to connect to Snowflake: " ++ msg)%string])
  /\ run_page env (page_state (run_page env ss)) = run_page env ss.
Proof.
  intros Hcfg Hconn Hargs Hfail.
  assert (Hrun : run_page env ss
                 = (Raise StopException, ss,
                    [EvError ("Failed to connect to Snowflake: " ++ msg)%string])).
  { unfold run_page, initialize_connection. rewrite Hcfg, Hconn, Hargs.
    cbn [rbind]. rewrite Hfail. reflexivity. }
  split; [exact Hrun |]. rewrite Hrun. unfold page_state; cbn [fst snd]. exact Hrun.
Qed.

Lemma connector_failure_halts_witness :
  let env := with_connect (fun _ => Failed "network down") Samples.env_ask in
  ss_CONN fresh_session_state = None
  /\ page_outcome (run_page env fresh_session_state) = Raise StopException
  /\ page_state (run_page env fresh_session_state) = fresh_session_state.
Proof.
  intros env.
  destruct (connector_failure_halts env fresh_session_state Samples.full_config
              {| arg_user := "u"; arg_password := "p"; arg_account := "acct";
                 arg_warehouse := "wh"; arg_database := "DB"; arg_schema := "SC";
                 arg_role := "r" |}
              "network down" eq_refl eq_refl eq_refl eq_refl) as (Hrun & _).
  split; [reflexivity |]. rewrite Hrun. split; reflexivity.
Defined.

(** X19.  The first run of a session.  With the configuration in place, a
    connector that answers and nothing typed, the first run stores the
    connection, creates the three attributes of lines 121-123 (an empty
    log, an empty [suggestions], [None] in the slot), and draws the
    connection banner, the title, the name of the semantic model and the
    chat box, in that order; it posts nothing. *)
Theorem first_run_initialises env cfg args conn file :
  secrets env = Some cfg ->
  connect_kwargs env cfg = Ok args ->
  connect env args = Returned conn ->
  dict_get cfg "file" = Some file ->
  chat_input env = None \/ chat_input env = Some "" ->
  run_page env fresh_session_state
  = (Ok tt,
     {| ss_CONN := Some conn;
        ss_chat := Some {| cs_messages := []; cs_suggestions := [];
                           cs_active_suggestion := PNone |} |},
     [EvSuccess "Connected to Snowflake successfully!";
      EvTitle "Cortex Analyst";
      EvMarkdown (PStr ("Semantic Model: `" ++ file ++ "`")%string);
      EvChatInput "What is your question?"]).
Proof.
  intros Hcfg Hargs Hconn Hfile Hinput.
  unfold run_page, initialize_connection. rewrite Hcfg. cbn [ss_CONN fresh_session_state].
  rewrite Hargs. cbn [rbind]. rewrite Hconn. cbn [of_attempt]. rewrite Hfile.
  cbn [ss_chat fresh_session_state].
  set (s := thaw conn fresh_chat).
  assert (Hbody : page_body env cfg s = (Ok tt, s, [EvChatInput "What is your question?"])).
  { unfold page_body. rewrite bind_run.
    assert (Hdraw : display_existing_messages env s = (Ok tt, s, []))
      by (unfold display_existing_messages; rewrite bind_get_session; reflexivity).
    rewrite Hdraw. project. rewrite bind_run.
    rewrite (process_user_input_idle env cfg s Hinput). project.
    rewrite handle_active_suggestion_falsy by reflexivity. reflexivity. }
  rewrite Hbody. reflexivity.
Qed.

Lemma first_run_initialises_witness :
  chat_input Samples.env_idle = None
  /\ page_state (run_page Samples.env_idle fresh_session_state)
     = {| ss_CONN := Some Samples.conn0; ss_chat := Some fresh_chat |}.
Proof.
  split; [reflexivity |].
  rewrite (first_run_initialises Samples.env_idle Samples.full_config
             {| arg_user := "u"; arg_password := "p"; arg_account := "acct";
                arg_warehouse := "wh"; arg_database := "DB"; arg_schema := "SC";
                arg_role := "r" |}
             Samples.conn0 "model.yaml" eq_refl eq_refl eq_refl eq_refl
             (or_introl eq_refl)).
  reflexivity.
Defined.



(* ===================================================================== *)
(** ** The renderer: the keys of the buttons of a log drawn again *)
(* ===================================================================== *)











